(** * abdl: the audio bible downloader, embedded and verified

    A shallow embedding of [abdl.js].  The program is a sequence of
    [async] functions that talk to the network, print to the console, keep
    one module-level variable ([bookListCache]) and throw [Error]s.  They
    are embedded as computations of a state-and-exception monad:

    - the outside world (what the server answers, whether a directory can
      be created, how the engine prints a value) is a [World] record that
      the functions read;
    - what the program changes is a [State] record: the cache variable,
      the list of URLs requested so far, the lines written to the console
      and the directories created;
    - a computation returns [Ok v] or [Throw e] together with the state
      reached, so that what was printed before an error is still there.

    Strings are [string]: sequences of characters with codes below 256,
    each standing for the UTF-16 code unit of the same value. *)

From Stdlib Require Import String Ascii List Arith NArith QArith Bool Lia.
From Stdlib Require Import DecimalString DecimalN.
From Stdlib Require DecimalFacts.
Import ListNotations.

#[local] Set Warnings "-register-all".
Close Scope Q_scope.
Open Scope list_scope.
Open Scope string_scope.

(** ** Values *)

(** What [JSON.parse] returns.  An object is the list of its own
    properties; [lookup] below reads the first binding of a key. *)
Inductive JSON : Type :=
| JNull
| JBool (b : bool)
| JNum (q : Q)
| JStr (s : string)
| JArr (elems : list JSON)
| JObj (fields : list (string * JSON)).

(** A JavaScript value as this program sees it: [None] is [undefined]. *)
Definition value : Type := option JSON.

(** The numbers produced by [Number(s)] on the strings of this program.
    [Num n] is the natural number [n] held by a double, which is exact up
    to 2^53; the operations below ([<=], [++], the decimal writing) are
    those of the exact values, which are those of the doubles as long as
    every number involved is at most 2^53.  Above that bound a double
    rounds, and the statements that depend on the value of such a number
    carry the bound as a hypothesis. *)
Inductive number : Type :=
| NaN
| Num (n : N).

Inductive stream : Type := stdout | stderr.

(** Why the promise of [fetchJson] was rejected: [reject(parsed)] on a
    status other than 200, [reject(err)] when [JSON.parse] throws, or the
    request's ['error'] event. *)
Inductive rejection : Type :=
| BadStatus (parsed : JSON)
| SyntaxError
| NetworkError.

(** What can be thrown.  [Error msg] is [Error(msg)] of the source;
    [TypeError] is raised by the engine when a property of [null] or
    [undefined] is read or a value that is not a function is called. *)
Inductive exn : Type :=
| Error (message : string)
| TypeError
| FetchRejected (r : rejection)
| IoError (message : string).

Inductive Outcome (A : Type) : Type :=
| Ok (a : A)
| Throw (e : exn).
Arguments Ok {A} a.
Arguments Throw {A} e.

(** ** The world and the state *)

Record World : Type := mkWorld {
  (** the answer to a GET of a URL, given the URLs requested before it *)
  net : list string -> string -> JSON + rejection;
  (** [fs.promises.mkdir(dir, { recursive: true })]: [None] when it
      succeeds, the error otherwise *)
  fs_mkdir : string -> option string;
  (** [JSON.stringify(json, null, 2)] *)
  JSON_stringify : JSON -> string;
  (** how a template literal prints a value that is not a string *)
  ToString_other : value -> string
}.

Record State : Type := mkState {
  bookListCache : option (list JSON);
  requests : list string;
  console : list (stream * string);
  dirs : list string
}.

(** [let bookListCache = null], nothing requested or printed yet. *)
Definition initial : State := mkState None [] [] [].

Definition set_bookListCache (c : option (list JSON)) (st : State) : State :=
  mkState c (requests st) (console st) (dirs st).

Definition add_request (url : string) (st : State) : State :=
  mkState (bookListCache st) (requests st ++ [url])%list (console st) (dirs st).

Definition add_line (l : stream * string) (st : State) : State :=
  mkState (bookListCache st) (requests st) (console st ++ [l])%list (dirs st).


Definition add_dir (d : string) (st : State) : State :=
  mkState (bookListCache st) (requests st) (console st) (dirs st ++ [d])%list.

(** ** The monad *)

Definition M (A : Type) : Type := State -> Outcome A * State.

Definition ret {A} (a : A) : M A := fun st => (Ok a, st).

Definition throw {A} (e : exn) : M A := fun st => (Throw e, st).

Definition bind {A B} (m : M A) (k : A -> M B) : M B :=
  fun st =>
    match m st with
    | (Ok a, st') => k a st'
    | (Throw e, st') => (Throw e, st')
    end.

Definition lift {A} (o : Outcome A) : M A := fun st => (o, st).

Definition get_state : M State := fun st => (Ok st, st).

Definition modify (f : State -> State) : M unit := fun st => (Ok tt, f st).

Declare Scope js_scope.
Delimit Scope js_scope with js.
Notation "x <- m ;; k" := (bind m (fun x => k))
  (at level 61, m at next level, right associativity) : js_scope.
Notation "m ;; k" := (bind m (fun _ => k))
  (at level 61, right associativity) : js_scope.
Open Scope js_scope.

(** [for (const x of xs) await f(x)], also [xs.forEach(f)]: stops at the
    first element on which [f] throws. *)
Fixpoint forEach {A} (f : A -> M unit) (xs : list A) : M unit :=
  match xs with
  | [] => ret tt
  | x :: xs' => f x ;; forEach f xs'
  end.

(** ** Language primitives *)

Fixpoint lookup (k : string) (fields : list (string * JSON)) : value :=
  match fields with
  | [] => None
  | (k', v) :: rest => if String.eqb k k' then Some v else lookup k rest
  end.

(** [v.k] for the property names this program reads ([items], [audio],
    [download_urls], [format_mp3_32k], [reference], [human], [usfm]):
    none of them is defined on a built-in prototype, so on a string, a
    number, a boolean or an array the result is [undefined]; on [null]
    and [undefined] the engine throws. *)
Definition prop (v : value) (k : string) : Outcome value :=
  match v with
  | None | Some JNull => Throw TypeError
  | Some (JObj fields) => Ok (lookup k fields)
  | Some _ => Ok None
  end.

(** Truthiness: what [!v], [v && ...], [v || ...] and [if (v)] test. *)
Definition truthy (v : value) : bool :=
  match v with
  | None | Some JNull => false
  | Some (JBool b) => b
  | Some (JNum q) => negb (Qeq_bool q 0)
  | Some (JStr s) => negb (String.eqb s "")
  | Some (JArr _) | Some (JObj _) => true
  end.

Definition Array_isArray (v : value) : bool :=
  match v with
  | Some (JArr _) => true
  | _ => false
  end.

(** The elements of a value that passed [Array.isArray]. *)
Definition elements (v : value) : list JSON :=
  match v with
  | Some (JArr l) => l
  | _ => []
  end.

(** [a[i]] on an array: [undefined] past the end. *)
Definition at_index (l : list JSON) (i : nat) : value := nth_error l i.

(** [`${v}`] *)
Definition ToString (w : World) (v : value) : string :=
  match v with
  | Some (JStr s) => s
  | _ => ToString_other w v
  end.

(** [String(n)], also [`${n}`], for a natural number up to 2^53: all the
    decimal digits, without a sign, an exponent or zeros in front.  (A
    larger double is printed with rounded digits, and in exponent form
    from 10^21.) *)
Definition String_of_N (n : N) : string :=
  NilEmpty.string_of_uint (N.to_uint n).

(** [s.startsWith(p)] *)
Definition startsWith (p s : string) : bool := String.prefix p s.

Fixpoint repeat_char (c : ascii) (n : nat) : string :=
  match n with
  | O => ""
  | S n' => String c (repeat_char c n')
  end.

(** [s.padStart(n, c)] for a one-character pad. *)
Definition padStart (n : nat) (c : ascii) (s : string) : string :=
  repeat_char c (n - String.length s) ++ s.

(** [v === s] for a string [s] *)
Definition strict_eq_string (v : value) (s : string) : bool :=
  match v with
  | Some (JStr s') => String.eqb s' s
  | _ => false
  end.

(** *** Regular expressions and strings *)

(** The class [\s] on code units below 256: tab, line feed, vertical
    tab, form feed, carriage return, space and no-break space. *)
Definition is_whitespace (c : ascii) : bool :=
  let n := nat_of_ascii c in
  (Nat.leb 9 n && Nat.leb n 13) || Nat.eqb n 32 || Nat.eqb n 160.

(** [s.replace(/\s+/g, '_')]: the scan goes left to right, a match
    starts at a whitespace character and takes the whole run; [in_run]
    tells that the character before belongs to a match already
    replaced. *)
Fixpoint replace_whitespace_from (in_run : bool) (s : string) : string :=
  match s with
  | "" => ""
  | String c rest =>
      if is_whitespace c then
        if in_run then replace_whitespace_from true rest
        else String "_" (replace_whitespace_from true rest)
      else String c (replace_whitespace_from false rest)
  end.

Definition replace_whitespace (s : string) : string :=
  replace_whitespace_from false s.

(** [v.replace(/\s+/g, '_')] on a value: only a string has the method. *)
Definition replace_whitespace_of (v : value) : Outcome string :=
  match v with
  | Some (JStr s) => Ok (replace_whitespace s)
  | _ => Throw TypeError
  end.

(** The class [\d] *)
Definition is_digit (c : ascii) : bool :=
  let n := nat_of_ascii c in Nat.leb 48 n && Nat.leb n 57.

(** The longest prefix of digits, and what follows it. *)
Fixpoint span_digits (s : string) : string * string :=
  match s with
  | "" => ("", "")
  | String c rest =>
      if is_digit c then
        let (ds, tl) := span_digits rest in (String c ds, tl)
      else ("", s)
  end.

(** [s.match(/^\d+(-\d+)?$/)] as a test: one or more digits, then
    either the end or a dash, one or more digits and the end. *)
Definition chapter_regex_match (s : string) : bool :=
  let (ds, tl) := span_digits s in
  if String.eqb ds "" then false else
  match tl with
  | "" => true
  | String c tl' =>
      if Ascii.eqb c "-" then
        let (ds', tl'') := span_digits tl' in
        negb (String.eqb ds' "") && String.eqb tl'' ""
      else false
  end.

(** [s.split(sep)] for a one-character separator.  The array is never
    empty: it is returned as its first piece and the pieces after it. *)
Fixpoint split (sep : ascii) (s : string) : string * list string :=
  match s with
  | "" => ("", [])
  | String c rest =>
      let (first, others) := split sep rest in
      if Ascii.eqb c sep then ("", first :: others)
      else (String c first, others)
  end.

Fixpoint all_digits (s : string) : bool :=
  match s with
  | "" => true
  | String c rest => is_digit c && all_digits rest
  end.

Definition digit_value (c : ascii) : N := N.of_nat (nat_of_ascii c - 48).

Fixpoint decimal_from (acc : N) (s : string) : N :=
  match s with
  | "" => acc
  | String c rest => decimal_from (10 * acc + digit_value c) rest
  end.

(** [Number(s)] on a string of decimal digits, the only strings it is
    given here ([Number('')] is 0): the value of the digits, which is the
    result as long as it is at most 2^53 (a larger value is rounded to the
    nearest double by the engine).  A string with any other character is
    sent to [NaN]; the program never converts one. *)
Definition Number (s : string) : number :=
  if all_digits s then Num (decimal_from 0 s) else NaN.

Definition truthy_number (x : number) : bool :=
  match x with
  | NaN => false
  | Num n => negb (N.eqb n 0)
  end.

(** [a <= b]: false as soon as one side is [NaN]. *)
Definition number_le (a b : number) : bool :=
  match a, b with
  | Num x, Num y => N.leb x y
  | _, _ => false
  end.

(** [r1 && (r1 <= r0)] as a test, [r1] read from an array and perhaps
    [undefined]. *)
Definition and_then_le (r1 : option number) (r0 : number) : bool :=
  match r1 with
  | Some e => truthy_number e && number_le e r0
  | None => false
  end.

(** [r1 || r0] *)
Definition or_else (r1 : option number) (r0 : number) : number :=
  match r1 with
  | Some e => if truthy_number e then e else r0
  | None => r0
  end.

(** [result[1] = v] seen from [result[1]] on: the element is replaced,
    or the array grows by one when it had a single element. *)
Definition array_set_head (tail : list number) (v : number) : list number :=
  match tail with
  | [] => [v]
  | _ :: tail' => v :: tail'
  end.

(** [chapterArg] as a condition: false for [null] and for the empty
    string, so that [!chapterArg] holds for both. *)
Definition truthy_arg (chapterArg : option string) : bool :=
  match chapterArg with
  | None => false
  | Some s => negb (String.eqb s "")
  end.

(** The string held by [chapterArg] once it is known to be truthy. *)
Definition arg_string (chapterArg : option string) : string :=
  match chapterArg with
  | None => ""
  | Some s => s
  end.

(** [url.startsWith('//') ? ('https:' + url) : url] *)
Definition normalize_url (url : string) : string :=
  if startsWith "//" url then "https:" ++ url else url.

(** ** Console and network *)

Definition console_log (s : string) : M unit := modify (add_line (stdout, s)).

Definition console_error (s : string) : M unit := modify (add_line (stderr, s)).

(** The three addresses the program builds. *)
Definition bookList_url (translationId : string) : string :=
  "https://www.bible.com/json/bible/books/" ++ translationId.

Definition chapters_url (translationId bookId : string) : string :=
  "https://www.bible.com/json/bible/books/" ++ translationId ++
  "/" ++ bookId ++ "/chapters".

Definition metaUrl (translationId bookId : string) (chapter : N) : string :=
  "https://nodejs.bible.com/api/bible/chapter/3.1?" ++
  "id=" ++ translationId ++ "&reference=" ++ bookId ++ "." ++
  String_of_N chapter.

Section Program.

Variable w : World.

(** [fetchJson(url)]: one GET; resolves with the parsed body on status
    200 and rejects otherwise. *)
Definition fetchJson (url : string) : M JSON :=
  fun st =>
    match net w (requests st) url with
    | inl parsed => (Ok parsed, add_request url st)
    | inr r => (Throw (FetchRejected r), add_request url st)
    end.

Definition unexpected_response (json : JSON) : exn :=
  Error ("Unexpected response:" ++ String "010" (JSON_stringify w json)).

Definition validateResponseHasItems (json : JSON) : M unit :=
  items <- lift (prop (Some json) "items") ;;
  if negb (Array_isArray items) then throw (unexpected_response json)
  else ret tt.

Definition fetchBookList (translationId : string) : M (list JSON) :=
  st <- get_state ;;
  match bookListCache st with
  | Some cached => ret cached
  | None =>
      console_log "Fetching books" ;;
      json <- fetchJson (bookList_url translationId) ;;
      validateResponseHasItems json ;;
      items <- lift (prop (Some json) "items") ;;
      modify (set_bookListCache (Some (elements items))) ;;
      ret (elements items)
  end.

(** [printBookList(translationId, logFn)]: one line per entry, the code,
    a colon, a tab and the name. *)
Definition printBookList (translationId : string) (logFn : string -> M unit)
  : M unit :=
  items <- fetchBookList translationId ;;
  forEach (fun item =>
             usfm <- lift (prop (Some item) "usfm") ;;
             human <- lift (prop (Some item) "human") ;;
             logFn (ToString w usfm ++ ":" ++ String "009" (ToString w human)))
          items.

(** [items.findIndex(item => item.usfm === bookId)], counting from [i]:
    [None] is the result -1. *)
Fixpoint findIndex_from (bookId : string) (items : list JSON) (i : nat)
  : Outcome (option nat) :=
  match items with
  | [] => Ok None
  | item :: rest =>
      match prop (Some item) "usfm" with
      | Throw e => Throw e
      | Ok usfm =>
          if strict_eq_string usfm bookId then Ok (Some i)
          else findIndex_from bookId rest (S i)
      end
  end.

Definition findIndex (bookId : string) (items : list JSON)
  : Outcome (option nat) :=
  findIndex_from bookId items 0.

(** [fs.promises.mkdir(dirname, { recursive: true })] *)
Definition fs_promises_mkdir (dirname : string) : M unit :=
  match fs_mkdir w dirname with
  | None => modify (add_dir dirname)
  | Some msg => throw (IoError msg)
  end.

(** [mkdir(translationId, bookId, canonical)]: returns the name of the
    created directory. *)
Definition mkdir (translationId bookId : string) (canonical : bool)
  : M string :=
  items <- fetchBookList translationId ;;
  found <- lift (findIndex bookId items) ;;
  match found with
  | None =>
      printBookList translationId console_error ;;
      throw (Error ("Did not find book id: " ++ bookId))
  | Some index =>
      human <- lift (prop (at_index items index) "human") ;;
      name <- lift (replace_whitespace_of human) ;;
      let dirname :=
        if canonical
        then padStart 2 "0" (String_of_N (N.of_nat (index + 1))) ++ "-" ++ name
        else name in
      console_log ("Making directory " ++ dirname) ;;
      fs_promises_mkdir dirname ;;
      ret dirname
  end.

Definition bad_metadata (json : JSON) : M unit :=
  throw (unexpected_response json).

(** The six tests of [validateMetadataResponse], left to right; a later
    one is evaluated only when the earlier ones are false. *)
Definition validateMetadataResponse (json : JSON) : M unit :=
  audio <- lift (prop (Some json) "audio") ;;
  if negb (Array_isArray audio) then bad_metadata json else
  if Nat.eqb (List.length (elements audio)) 0 then bad_metadata json else
  download_urls <- lift (prop (at_index (elements audio) 0) "download_urls") ;;
  if negb (truthy download_urls) then bad_metadata json else
  format_mp3_32k <- lift (prop download_urls "format_mp3_32k") ;;
  if negb (truthy format_mp3_32k) then bad_metadata json else
  reference <- lift (prop (Some json) "reference") ;;
  if negb (truthy reference) then bad_metadata json else
  human <- lift (prop reference "human") ;;
  if negb (truthy human) then bad_metadata json else
  ret tt.

Record Metadata : Type := mkMetadata {
  audioUrl : string;
  chapterName : value
}.

(** [fetchMetadata(translationId, bookId, chapter)] *)
Definition fetchMetadata (translationId bookId : string) (chapter : N)
  : M Metadata :=
  console_log ("Fetching metadata for " ++ bookId ++ "." ++ String_of_N chapter) ;;
  json <- fetchJson (metaUrl translationId bookId chapter) ;;
  validateMetadataResponse json ;;
  reference <- lift (prop (Some json) "reference") ;;
  chapterName <- lift (prop reference "human") ;;
  audio <- lift (prop (Some json) "audio") ;;
  download_urls <- lift (prop (at_index (elements audio) 0) "download_urls") ;;
  audioUrl <- lift (prop download_urls "format_mp3_32k") ;;
  match audioUrl with
  | Some (JStr url) =>
      ret (mkMetadata (normalize_url url) chapterName)
  | _ => throw TypeError
  end.

(** [getChapterRange(translationId, bookId, chapterArg)]: the array
    [[start, end]]. *)
Definition getChapterRange (translationId bookId : string)
  (chapterArg : option string) : M (list number) :=
  if negb (truthy_arg chapterArg) then
    console_log ("Fetching chapters for " ++ bookId) ;;
    json <- fetchJson (chapters_url translationId bookId) ;;
    validateResponseHasItems json ;;
    items <- lift (prop (Some json) "items") ;;
    ret [Num 1; Num (N.of_nat (List.length (elements items)))]
  else
    let arg := arg_string chapterArg in
    if negb (chapter_regex_match arg) then
      throw (Error "Chapter must be a number or a range (e.g. 3-5)")
    else
      let (first, rest) := split "-" arg in
      let result0 := Number first in
      let result_rest := map Number rest in
      let result1 := nth_error result_rest 0 in
      if and_then_le result1 result0 then
        throw (Error ("Invalid range: " ++ arg))
      else
        ret (result0 :: array_set_head result_rest (or_else result1 result0)).

End Program.

(** ** The revision that keeps the chapter count

    Another revision of [getChapterRange] returns the range as
    [[start, end, total]]: the chapter list is fetched in every case,
    after the format of the expression has been checked. *)
Module Revision.

Section Program.

Variable w : World.

Definition getChapterRange (translationId bookId : string)
  (chapterArg : option string) : M (list number) :=
  if truthy_arg chapterArg && negb (chapter_regex_match (arg_string chapterArg))
  then throw (Error "Chapter must be a number or a range (e.g. 3-5)")
  else
    console_log ("Fetching chapters for " ++ bookId) ;;
    json <- fetchJson w (chapters_url translationId bookId) ;;
    validateResponseHasItems w json ;;
    items <- lift (prop (Some json) "items") ;;
    let total := Num (N.of_nat (List.length (elements items))) in
    if negb (truthy_arg chapterArg) then ret [Num 1; total; total]
    else
      let arg := arg_string chapterArg in
      let (first, rest) := split "-" arg in
      let range0 := Number first in
      let range_rest := map Number rest in
      let range1 := nth_error range_rest 0 in
      if and_then_le range1 range0 then
        throw (Error ("Invalid range: " ++ arg))
      else
        ret ((range0 :: array_set_head range_rest (or_else range1 range0))
               ++ [total])%list.

End Program.

End Revision.

(** * Vocabulary of the specification *)

(** The value of a string of digits. *)
Definition decimal (s : string) : N := decimal_from 0 s.

(** A string does not begin with a digit. *)
Definition no_leading_digit (s : string) : Prop :=
  match s with
  | "" => True
  | String c _ => is_digit c = false
  end.

(** One or more decimal digits: the strings that [\d+] matches whole. *)
Definition numeral (s : string) : Prop := all_digits s = true /\ s <> "".

(** The grammar of an explicit chapter expression: [N] or [N-M]. *)
Definition chapter_grammar (s : string) : Prop :=
  numeral s \/ exists a b, s = a ++ "-" ++ b /\ numeral a /\ numeral b.

(** The invariant the data model states for a chapter range. *)
Definition range_invariant (r : list number) (total : N) : Prop :=
  exists s e, r = [Num s; Num e] /\ (1 <= s)%N /\ (s <= e)%N /\ (e <= total)%N.

(** The state after [console.log(line)] and one GET of [url]. *)
Definition logged_request (line url : string) (st : State) : State :=
  add_request url (add_line (stdout, line) st).

(** The field [k] of a payload, when the payload is an object that has
    it. *)
Definition field (json : JSON) (k : string) : value :=
  match json with
  | JObj fields => lookup k fields
  | _ => None
  end.

(** The payload has the list structure of a catalog answer: a field
    [items] that is an array. *)
Definition has_items (json : JSON) : Prop :=
  exists items, field json "items" = Some (JArr items).

(** The field [k] of a value that may be [undefined]. *)
Definition field_of (v : value) (k : string) : value :=
  match v with
  | Some json => field json k
  | None => None
  end.

(** The first entry of the audio list of a metadata answer, when the
    answer has a non-empty audio list. *)
Definition first_audio_entry (json : JSON) : value :=
  match field json "audio" with
  | Some (JArr (entry :: _)) => Some entry
  | _ => None
  end.

(** The address an audio entry gives under the key of the 32k mp3
    format, in its map of download addresses. *)
Definition entry_url (entry : JSON) : value :=
  field_of (field entry "download_urls") "format_mp3_32k".

(** The human name of the chapter in a metadata answer. *)
Definition reference_human (json : JSON) : value :=
  field_of (field json "reference") "human".

(** The shape the code requires of a metadata answer: a non-empty audio
    list whose first entry gives an address, and a chapter name. *)
Definition metadata_well_formed (json : JSON) : bool :=
  match first_audio_entry json with
  | Some entry => truthy (entry_url entry) && truthy (reference_human json)
  | None => false
  end.

(** The state after the line and the request of [fetchMetadata]. *)
Definition metadata_requested (translationId bookId : string) (chapter : N)
  (st : State) : State :=
  logged_request ("Fetching metadata for " ++ bookId ++ "." ++ String_of_N chapter)
                 (metaUrl translationId bookId chapter) st.

(** The entry is the book of code [bookId]. *)
Definition has_code (bookId : string) (item : JSON) : Prop :=
  field item "usfm" = Some (JStr bookId).

(** No entry of the list is [null]. *)
Definition no_null_entry (items : list JSON) : Prop :=
  Forall (fun item => item <> JNull) items.

(** [item] is the first entry of code [bookId], at position [i] counted
    from 0. *)
Definition first_with_code (bookId : string) (items : list JSON) (i : nat)
  (item : JSON) : Prop :=
  nth_error items i = Some item /\ has_code bookId item /\
  forall j item', (j < i)%nat -> nth_error items j = Some item' ->
                  ~ has_code bookId item'.



Fixpoint all_whitespace (s : string) : bool :=
  match s with
  | "" => true
  | String c rest => is_whitespace c && all_whitespace rest
  end.

Definition no_leading_whitespace (s : string) : Prop :=
  match s with
  | "" => True
  | String c _ => is_whitespace c = false
  end.

(** "Every whitespace run replaced by an underscore", in the words of
    the specification: a character that is not whitespace is kept, and a
    maximal run of whitespace becomes one underscore. *)
Inductive Collapsed : string -> string -> Prop :=
| Collapsed_nil : Collapsed "" ""
| Collapsed_char (c : ascii) (s s' : string) :
    is_whitespace c = false -> Collapsed s s' ->
    Collapsed (String c s) (String c s')
| Collapsed_run (run s s' : string) :
    run <> "" -> all_whitespace run = true -> no_leading_whitespace s ->
    Collapsed s s' ->
    Collapsed (run ++ s) (String "_" s').

(** A position written with two digits at least, zero-padded. *)
Definition two_digits (n : N) : string :=
  if N.ltb n 10 then String "0" (String_of_N n) else String_of_N n.

(** The name of the directory of the book at position [i] (from 0) whose
    name collapses to [name]. *)
Definition directory_name (canonical : bool) (i : nat) (name : string) : string :=
  if canonical then two_digits (N.of_nat i + 1) ++ "-" ++ name else name.

(** ** A sample world

    The server of the examples: translation 100 has three books,
    translation 200 has one, Genesis has three chapters, and the
    metadata of Genesis 1 names a protocol-relative address. *)

Definition book (usfm human : string) : JSON :=
  JObj [("usfm", JStr usfm); ("human", JStr human)].

Definition with_items (items : list JSON) : JSON := JObj [("items", JArr items)].

Definition sample_books : list JSON :=
  [book "GEN" "Genesis"; book "EXO" "Exodus"; book "LEV" "Leviticus"].

Definition other_books : list JSON := [book "MAT" "Matthew"].

Definition sample_chapters : list JSON :=
  [JObj [("usfm", JStr "GEN.1")]; JObj [("usfm", JStr "GEN.2")];
   JObj [("usfm", JStr "GEN.3")]].

Definition audio_entry (url : string) : JSON :=
  JObj [("download_urls", JObj [("format_mp3_32k", JStr url)])].

Definition sample_metadata : JSON :=
  JObj [("audio", JArr [audio_entry "//host/path"]);
        ("reference", JObj [("human", JStr "Genesis 1")])].

(** Genesis 2: the second audio entry has no map of addresses. *)
Definition metadata_second_entry_bare : JSON :=
  JObj [("audio", JArr [audio_entry "https://host/gen2.mp3"; JObj []]);
        ("reference", JObj [("human", JStr "Genesis 2")])].

(** Genesis 3: the audio list is as expected, the chapter name is
    missing. *)
Definition metadata_without_reference : JSON :=
  JObj [("audio", JArr [audio_entry "https://host/gen3.mp3"])].

(** Genesis 4: the first audio entry has no map of addresses. *)
Definition metadata_first_entry_bare : JSON :=
  JObj [("audio", JArr [JObj []]);
        ("reference", JObj [("human", JStr "Genesis 4")])].

Definition sample_net (history : list string) (url : string) : JSON + rejection :=
  if String.eqb url (bookList_url "100") then inl (with_items sample_books)
  else if String.eqb url (bookList_url "200") then inl (with_items other_books)
  else if String.eqb url (chapters_url "100" "GEN") then inl (with_items sample_chapters)
  else if String.eqb url (metaUrl "100" "GEN" 1) then inl sample_metadata
  else if String.eqb url (metaUrl "100" "GEN" 2) then inl metadata_second_entry_bare
  else if String.eqb url (metaUrl "100" "GEN" 3) then inl metadata_without_reference
  else if String.eqb url (metaUrl "100" "GEN" 4) then inl metadata_first_entry_bare
  else inr NetworkError.

Definition sample_world : World :=
  mkWorld sample_net (fun _ => None) (fun _ => "{}") (fun _ => "undefined").


(** A server that answers every request with the JSON text [null]. *)
Definition null_world : World :=
  mkWorld (fun _ _ => inl JNull) (fun _ => None) (fun _ => "null")
          (fun _ => "undefined").

(** ** Listing the translations *)

Definition translations_url : string :=
  "https://www.bible.com/json/bible/versions/eng".

(** [items.filter(item => item.audio)]: the callback reads a property of
    every element before anything is printed. *)
Fixpoint filter_audio (items : list JSON) : Outcome (list JSON) :=
  match items with
  | [] => Ok []
  | item :: rest =>
      match prop (Some item) "audio" with
      | Throw e => Throw e
      | Ok audio =>
          match filter_audio rest with
          | Throw e => Throw e
          | Ok kept => Ok (if truthy audio then item :: kept else kept)
          end
      end
  end.

Section Listing.

Variable w : World.

(** [fetchTranslations()] *)
Definition fetchTranslations : M (list JSON) :=
  console_log "Fetching translations" ;;
  json <- fetchJson w translations_url ;;
  validateResponseHasItems w json ;;
  items <- lift (prop (Some json) "items") ;;
  ret (elements items).

(** [printTranslations(logFn)] *)
Definition printTranslations (logFn : string -> M unit) : M unit :=
  items <- fetchTranslations ;;
  kept <- lift (filter_audio items) ;;
  forEach (fun item =>
             id <- lift (prop (Some item) "id") ;;
             local_title <- lift (prop (Some item) "local_title") ;;
             logFn (ToString w id ++ ":" ++ String "009" (ToString w local_title)))
          kept.

End Listing.

(** ** The command line *)

(** What the engine and the operating system give to the rest of the
    program. *)
Inductive download_answer : Type :=
| Response (statusCode : N) (statusMessage body : string)
| RequestError.

Record Host : Type := mkHost {
  (** [s.toUpperCase()] *)
  toUpperCase : string -> string;
  (** [isNaN(s)] for a string [s] *)
  isNaN_string : string -> bool;
  (** [path.basename(__filename)] *)
  thisfile : string;
  (** [path.join(a, b)] *)
  path_join : string -> string -> string;
  (** the answer to the GET of an audio file, given the addresses
      downloaded before it *)
  https_get : list string -> string -> download_answer;
  (** [fs.promises.writeFile(path, data)]: [None] when it succeeds *)
  fs_writeFile : string -> string -> option string;
  (** what [console.error(err)] prints for what was thrown *)
  inspect : exn -> string
}.

(** The translation id as [getArgs] leaves it: the number 100 by
    default, the string given after [-t], or [undefined] when [-t] is the
    last argument. *)
Inductive TranslationId : Type :=
| DefaultId
| GivenId (s : string)
| MissingId.

(** ['...' + translationId] *)
Definition TranslationId_string (t : TranslationId) : string :=
  match t with
  | DefaultId => "100"
  | GivenId s => s
  | MissingId => "undefined"
  end.

Record Args : Type := mkArgs {
  arg_help : bool;
  arg_listBooks : bool;
  arg_listTranslations : bool;
  arg_canonical : bool;
  arg_translationId : TranslationId;
  arg_chapters : option string;
  arg_bookId : option string
}.

Definition default_args : Args :=
  mkArgs false false false false DefaultId None None.

Fixpoint skip (n : nat) (s : string) : string :=
  match n, s with
  | S n', String _ rest => skip n' rest
  | _, _ => s
  end.

(** [s.replace(pattern, by)] for a non-empty string pattern: the first
    occurrence is replaced. *)
Fixpoint replace_first (pattern by_ s : string) : string :=
  if String.prefix pattern s then by_ ++ skip (String.length pattern) s
  else match s with
       | "" => ""
       | String c rest => String c (replace_first pattern by_ rest)
       end.

Section CommandLine.

Variable h : Host.

(** The loop of [getArgs] over [process.argv] from its third element
    on; [-t] takes the argument after it, which is [undefined] when there
    is none. *)
Fixpoint getArgs_from (args : list string) (result : Args) : Args :=
  match args with
  | [] => result
  | arg :: rest =>
      if String.eqb arg "-h" then
        getArgs_from rest
          (mkArgs true (arg_listBooks result) (arg_listTranslations result)
             (arg_canonical result) (arg_translationId result)
             (arg_chapters result) (arg_bookId result))
      else if String.eqb arg "-l" then
        getArgs_from rest
          (mkArgs (arg_help result) true (arg_listTranslations result)
             (arg_canonical result) (arg_translationId result)
             (arg_chapters result) (arg_bookId result))
      else if String.eqb arg "-i" then
        getArgs_from rest
          (mkArgs (arg_help result) (arg_listBooks result) true
             (arg_canonical result) (arg_translationId result)
             (arg_chapters result) (arg_bookId result))
      else if String.eqb arg "-c" then
        getArgs_from rest
          (mkArgs (arg_help result) (arg_listBooks result)
             (arg_listTranslations result) true (arg_translationId result)
             (arg_chapters result) (arg_bookId result))
      else if String.eqb arg "-t" then
        match rest with
        | [] =>
            mkArgs (arg_help result) (arg_listBooks result)
              (arg_listTranslations result) (arg_canonical result) MissingId
              (arg_chapters result) (arg_bookId result)
        | next :: rest' =>
            getArgs_from rest'
              (mkArgs (arg_help result) (arg_listBooks result)
                 (arg_listTranslations result) (arg_canonical result)
                 (GivenId next) (arg_chapters result) (arg_bookId result))
        end
      else if startsWith "-t" arg then
        getArgs_from rest
          (mkArgs (arg_help result) (arg_listBooks result)
             (arg_listTranslations result) (arg_canonical result)
             (GivenId (replace_first "-t" "" arg))
             (arg_chapters result) (arg_bookId result))
      else if truthy_arg (arg_bookId result) then
        getArgs_from rest
          (mkArgs (arg_help result) (arg_listBooks result)
             (arg_listTranslations result) (arg_canonical result)
             (arg_translationId result) (Some arg) (arg_bookId result))
      else
        getArgs_from rest
          (mkArgs (arg_help result) (arg_listBooks result)
             (arg_listTranslations result) (arg_canonical result)
             (arg_translationId result) (arg_chapters result)
             (Some (toUpperCase h arg)))
  end.

(** [getArgs()], [args] being [process.argv.slice(2)]. *)
Definition getArgs (args : list string) : Args := getArgs_from args default_args.

(** [isNaN(translationId)] *)
Definition isNaN (t : TranslationId) : bool :=
  match t with
  | DefaultId => false
  | GivenId s => isNaN_string h s
  | MissingId => true
  end.

(** [printHelp(logFn)] *)
Definition printHelp (logFn : string -> M unit) : M unit :=
  logFn "Download audio bible files into the current directory." ;;
  logFn ("Usage: node " ++ thisfile h ++ " [options] <book id> [chapter(s)]") ;;
  logFn (String "009" "-h  help") ;;
  logFn (String "009" "-l  list books ids") ;;
  logFn (String "009" "-i  list translation ids") ;;
  logFn (String "009" "-t  use translation id (default 100)") ;;
  logFn (String "009" "-c  precede directory book names with their canonical number") ;;
  logFn ("e.g. node " ++ thisfile h ++ " -t100 PSA 27-34") ;;
  logFn "If no chapters are specified, all of them will be downloaded.".

(** [getOutputFilePath(dirname, chapterName)] *)
Definition getOutputFilePath (dirname : string) (chapterName : value)
  : Outcome string :=
  match replace_whitespace_of chapterName with
  | Ok name => Ok (path_join h dirname (name ++ ".mp3"))
  | Throw e => Throw e
  end.

End CommandLine.

(** ** The whole run

    [main] adds to the state of the functions above the audio files
    asked for and the files written, and a run can end in a third way,
    by [process.exit]. *)

Record Process : Type := mkProcess {
  js : State;
  downloads : list string;
  files : list (string * string)
}.

Definition start : Process := mkProcess initial [] [].

Inductive Completion (A : Type) : Type :=
| Returned (a : A)
| Threw (e : exn)
| Exited (code : N).
Arguments Returned {A} a.
Arguments Threw {A} e.
Arguments Exited {A} code.

Definition P (A : Type) : Type := Process -> Completion A * Process.

Definition retP {A} (a : A) : P A := fun p => (Returned a, p).

Definition throwP {A} (e : exn) : P A := fun p => (Threw e, p).

(** [process.exit(code)] *)
Definition process_exit {A} (code : N) : P A := fun p => (Exited code, p).

Definition bindP {A B} (m : P A) (k : A -> P B) : P B :=
  fun p =>
    match m p with
    | (Returned a, p') => k a p'
    | (Threw e, p') => (Threw e, p')
    | (Exited code, p') => (Exited code, p')
    end.

(** A function of the program, run inside [main]. *)
Definition liftM {A} (m : M A) : P A :=
  fun p =>
    match m (js p) with
    | (Ok a, st) => (Returned a, mkProcess st (downloads p) (files p))
    | (Throw e, st) => (Threw e, mkProcess st (downloads p) (files p))
    end.

(** [if (cond) { ... }] *)
Definition when (cond : bool) (m : P unit) : P unit :=
  if cond then m else retP tt.

Declare Scope proc_scope.
Delimit Scope proc_scope with proc.
Notation "x <- m ;; k" := (bindP m (fun x => k))
  (at level 61, m at next level, right associativity) : proc_scope.
Notation "m ;; k" := (bindP m (fun _ => k))
  (at level 61, right associativity) : proc_scope.

(** [`${x}`] for an element read from the array of the range. *)
Definition number_string (x : option number) : string :=
  match x with
  | Some (Num n) => String_of_N n
  | Some NaN => "NaN"
  | None => "undefined"
  end.

(** How many times the body of [for (let c = start; c <= end; c++)]
    runs when no turn throws and [end] is below 2^53, so that [c++] adds
    exactly one up to [end + 1]: [end + 1 - start] times when both are
    numbers and [start <= end], not at all otherwise.  (From 2^53 on
    [c++] no longer advances by one; such ranges are outside of what is
    stated about the loop.) *)
Definition iterations (first last : option number) : nat :=
  match first, last with
  | Some (Num s), Some (Num e) => N.to_nat (e + 1 - s)
  | _, _ => 0%nat
  end.

(** The value of [c] when the loop is entered. *)
Definition first_chapter (first : option number) : N :=
  match first with
  | Some (Num s) => s
  | _ => 0%N
  end.

Section Main.

Variable h : Host.
Variable w : World.

(** [download(url)] *)
Definition download (url : string) : P string :=
  (liftM (console_log ("Downloading " ++ url)) ;;
   fun p =>
     let p' := mkProcess (js p) (downloads p ++ [url])%list (files p) in
     match https_get h (downloads p) url with
     | Response statusCode statusMessage body =>
         let respMessage := String_of_N statusCode ++ " " ++ statusMessage in
         if N.eqb statusCode 200 then
           (liftM (console_log respMessage) ;; retP body)%proc p'
         else (Threw (Error respMessage), p')
     | RequestError => (Threw (FetchRejected NetworkError), p')
     end)%proc.

(** [fs.promises.writeFile(outputPath, data)] *)
Definition fs_promises_writeFile (outputPath data : string) : P unit :=
  fun p =>
    match fs_writeFile h outputPath data with
    | None =>
        (Returned tt,
         mkProcess (js p) (downloads p) (files p ++ [(outputPath, data)])%list)
    | Some msg => (Threw (IoError msg), p)
    end.

(** The body of the loop of [main], for the chapter [c]. *)
Definition download_chapter (translationId bookId dirname : string) (c : N)
  : P unit :=
  (metadata <- liftM (fetchMetadata w translationId bookId c) ;;
   outputPath <- liftM (lift (getOutputFilePath h dirname (chapterName metadata))) ;;
   data <- download (audioUrl metadata) ;;
   liftM (console_log ("Writing to " ++ outputPath)) ;;
   fs_promises_writeFile outputPath data)%proc.

(** The loop of [main] with [n] iterations left, [c] being the chapter
    of the next one; [c++] is [c + 1], all chapters being below 2^53.  A
    turn that throws ends the loop. *)
Fixpoint chapter_loop (translationId bookId dirname : string) (n : nat) (c : N)
  : P unit :=
  match n with
  | O => retP tt
  | S n' =>
      (download_chapter translationId bookId dirname c ;;
       chapter_loop translationId bookId dirname n' (c + 1))%proc
  end.

(** [for (let c = start; c <= end; c++) { ... }] of [main], [start] and
    [end] being the first two elements of the range, for an [end] below
    2^53. *)
Definition for_chapters (translationId bookId dirname : string)
  (first last : option number) : P unit :=
  chapter_loop translationId bookId dirname
    (iterations first last) (first_chapter first).

(** The [try] block of [main]. *)
Definition main_body (args : list string) : P unit :=
  let a := getArgs h args in
  let translationId := TranslationId_string (arg_translationId a) in
  let bookId := arg_string (arg_bookId a) in
  (when (arg_help a) (liftM (printHelp h console_log)) ;;
   when (arg_listTranslations a) (liftM (printTranslations w console_log)) ;;
   when (isNaN h (arg_translationId a))
     (liftM (printHelp h console_error) ;;
      throwP (Error ("Invalid translation id: " ++ translationId))) ;;
   when (arg_listBooks a) (liftM (printBookList w translationId console_log)) ;;
   when (arg_help a || arg_listTranslations a || arg_listBooks a)
     (process_exit 0) ;;
   when (negb (truthy_arg (arg_bookId a)))
     (liftM (printHelp h console_error) ;;
      throwP (Error "book id required")) ;;
   range <- liftM (getChapterRange w translationId bookId (arg_chapters a)) ;;
   let first := nth_error range 0 in
   let last := nth_error range 1 in
   dirname <- liftM (mkdir w translationId bookId (arg_canonical a)) ;;
   liftM (console_log ("Downloading chapters " ++ number_string first ++
                       "-" ++ number_string last)) ;;
   for_chapters translationId bookId dirname first last ;;
   liftM (console_log "It is finished"))%proc.

(** [main()]: the exit code of the process and what it leaves.  An
    error is printed on the error stream and the process exits with code
    1; otherwise the code is that of [process.exit], or 0 at the end. *)
Definition main (args : list string) (p : Process) : N * Process :=
  match main_body args p with
  | (Returned _, p') => (0%N, p')
  | (Exited code, p') => (code, p')
  | (Threw e, p') =>
      (1%N, mkProcess (add_line (stderr, inspect h e) (js p'))
                      (downloads p') (files p'))
  end.

End Main.

(** ** More vocabulary *)

(** No character of the string is whitespace. *)
Fixpoint no_whitespace (s : string) : bool :=
  match s with
  | "" => true
  | String c rest => negb (is_whitespace c) && no_whitespace rest
  end.




(** A computation that creates no directory. *)
Definition keeps_dirs {A} (m : M A) : Prop :=
  forall st, dirs (snd (m st)) = dirs st.

(** A part of [main] that creates no directory, downloads nothing and
    writes no file. *)
Definition quiet {A} (m : P A) : Prop :=
  forall p,
    dirs (js (snd (m p))) = dirs (js p) /\
    downloads (snd (m p)) = downloads p /\
    files (snd (m p)) = files p.




(** The decimal writing of a number, as the engine prints a natural
    number that a double holds exactly: one or more digits of that
    value, the first of which is a zero for the number 0 only, written
    with the one digit. *)
Definition written_in_decimal (n : N) (s : string) : Prop :=
  numeral s /\ decimal s = n /\
  (String.prefix "0" s = true -> n = 0%N /\ s = "0").

(** ** More sample worlds *)

(** A server whose every answer is the empty object. *)
Definition empty_object_world : World :=
  mkWorld (fun _ _ => inl (JObj [])) (fun _ => None) (fun _ => "{}")
          (fun _ => "undefined").

Definition translation (id : Q) (local_title : string) (audio : bool) : JSON :=
  JObj [("id", JNum id); ("local_title", JStr local_title); ("audio", JBool audio)].

Definition sample_translations : list JSON :=
  [translation (100 # 1) "NASB" true; translation (1 # 1) "KJV" false;
   translation (59 # 1) "ESV" true].

(** A book list with a [null] in the middle, and one whose first entry
    for Exodus has no name. *)
Definition books_with_null : list JSON :=
  [book "GEN" "Genesis"; JNull; book "LEV" "Leviticus"].

Definition books_without_name : list JSON :=
  [book "GEN" "Genesis"; JObj [("usfm", JStr "EXO")]].

(** The metadata of a chapter whose address is a number. *)
Definition metadata_numeric_url : JSON :=
  JObj [("audio", JArr [JObj [("download_urls",
                               JObj [("format_mp3_32k", JNum (7 # 1))])]]);
        ("reference", JObj [("human", JStr "Genesis 5")])].

Definition listing_net (history : list string) (url : string) : JSON + rejection :=
  if String.eqb url translations_url then inl (with_items sample_translations)
  else if String.eqb url (bookList_url "1") then inl (with_items books_with_null)
  else if String.eqb url (bookList_url "2") then inl (with_items books_without_name)
  else if String.eqb url (metaUrl "100" "GEN" 5) then inl metadata_numeric_url
  else inr NetworkError.

Definition listing_world : World :=
  mkWorld listing_net (fun _ => None) (fun _ => "{}")
          (fun v => match v with
                    | Some (JNum q) => String_of_N (Z.to_N (Qnum q))
                    | _ => "undefined"
                    end).

(** A host for the examples: ASCII letters are put in upper case, a
    translation id is a number when it is made of digits, paths are
    joined with a slash, every audio file is served and every file can be
    written. *)
Definition upper_ascii (c : ascii) : ascii :=
  let n := nat_of_ascii c in
  if Nat.leb 97 n && Nat.leb n 122 then ascii_of_nat (n - 32) else c.

Fixpoint upper_string (s : string) : string :=
  match s with
  | "" => ""
  | String c rest => String (upper_ascii c) (upper_string rest)
  end.

Definition sample_inspect (e : exn) : string :=
  match e with
  | Error message => "Error: " ++ message
  | TypeError => "TypeError"
  | FetchRejected _ => "rejected"
  | IoError message => "Error: " ++ message
  end.

Definition sample_host : Host :=
  mkHost upper_string (fun s => negb (all_digits s)) "abdl.js"
         (fun a b => a ++ "/" ++ b)
         (fun _ url => Response 200 "OK" ("audio of " ++ url))
         (fun _ _ => None)
         sample_inspect.

(** The same host, on which no audio file can be had. *)
Definition offline_host : Host :=
  mkHost upper_string (fun s => negb (all_digits s)) "abdl.js"
         (fun a b => a ++ "/" ++ b)
         (fun _ _ => RequestError)
         (fun _ _ => None)
         sample_inspect.

(** * Verification *)

(** Unfolds the operations of the monad, so that a computation becomes
    a function of the state that can be evaluated. *)
Ltac js_unfold :=
  repeat (progress (unfold bind, ret, throw, lift, modify, get_state,
                      console_log, console_error, bad_metadata in *)).

(** ** The chapter expression: grammar and conversion *)

Lemma dash_not_digit : is_digit "-" = false.
Proof. reflexivity. Qed.

Lemma is_digit_not_dash (c : ascii) : is_digit c = true -> Ascii.eqb c "-" = false.
Proof.
  intros Hc. destruct (Ascii.eqb c "-") eqn:E; [|reflexivity].
  apply Ascii.eqb_eq in E. subst c. discriminate Hc.
Qed.

Lemma span_digits_app (a r : string) :
  all_digits a = true -> no_leading_digit r -> span_digits (a ++ r) = (a, r).
Proof.
  intros Ha Hr. induction a as [|c a IH]; simpl in *.
  - destruct r as [|c r]; [reflexivity|]. simpl in Hr. simpl. now rewrite Hr.
  - apply andb_true_iff in Ha as [Hc Ha]. rewrite Hc, (IH Ha). reflexivity.
Qed.

Lemma span_digits_spec (s ds tl : string) :
  span_digits s = (ds, tl) ->
  s = ds ++ tl /\ all_digits ds = true /\ no_leading_digit tl.
Proof.
  revert ds tl. induction s as [|c s IH]; simpl; intros ds tl H.
  - inversion H; subst. repeat split.
  - destruct (is_digit c) eqn:Hc.
    + destruct (span_digits s) as [ds' tl'] eqn:E. inversion H; subst.
      destruct (IH _ _ eq_refl) as (-> & Hds & Htl).
      simpl. rewrite Hc, Hds. repeat split. exact Htl.
    + inversion H; subst. simpl. repeat split. exact Hc.
Qed.

Lemma string_app_nil_r (s : string) : s ++ "" = s.
Proof. induction s as [|c s IH]; simpl; [reflexivity | now rewrite IH]. Qed.

Lemma string_eqb_empty (s : string) : s <> "" -> String.eqb s "" = false.
Proof. intros H. destruct s; [congruence | reflexivity]. Qed.

(** The regular expression accepts exactly the two forms of the grammar:
    a numeral, or two numerals joined by a dash. *)
Lemma chapter_regex_match_iff (s : string) :
  chapter_regex_match s = true <-> chapter_grammar s.
Proof.
  unfold chapter_regex_match, chapter_grammar, numeral. split.
  - destruct (span_digits s) as [ds tl] eqn:E.
    destruct (span_digits_spec _ _ _ E) as (-> & Hds & Htl).
    destruct (String.eqb ds "") eqn:Hne; [discriminate|].
    apply String.eqb_neq in Hne.
    destruct tl as [|c tl'].
    + intros _. left. rewrite string_app_nil_r. now split.
    + destruct (Ascii.eqb c "-") eqn:Hc; [|discriminate].
      apply Ascii.eqb_eq in Hc. subst c.
      destruct (span_digits tl') as [ds' tl''] eqn:E'.
      destruct (span_digits_spec _ _ _ E') as (-> & Hds' & _).
      intros H. apply andb_true_iff in H as [H1 H2].
      apply String.eqb_eq in H2. subst tl''.
      apply negb_true_iff, String.eqb_neq in H1.
      right. exists ds, ds'. rewrite string_app_nil_r. repeat split; assumption.
  - intros [[Hd Hne] | (a & b & -> & [Ha Hane] & [Hb Hbne])].
    + rewrite <- (string_app_nil_r s) at 1.
      rewrite (span_digits_app s "" Hd I), (string_eqb_empty _ Hne). reflexivity.
    + rewrite (span_digits_app a ("-" ++ b) Ha dash_not_digit).
      rewrite (string_eqb_empty _ Hane). simpl.
      rewrite <- (string_app_nil_r b) at 1.
      rewrite (span_digits_app b "" Hb I), (string_eqb_empty _ Hbne). reflexivity.
Qed.

Lemma split_numeral (a : string) :
  all_digits a = true -> split "-" a = (a, []).
Proof.
  induction a as [|c a IH]; simpl; [reflexivity|]. intros H.
  apply andb_true_iff in H as [Hc Ha]. rewrite (IH Ha), (is_digit_not_dash _ Hc).
  reflexivity.
Qed.

Lemma split_range (a b : string) :
  all_digits a = true -> all_digits b = true ->
  split "-" (a ++ "-" ++ b) = (a, [b]).
Proof.
  intros Ha Hb. induction a as [|c a IH]; simpl in *.
  - now rewrite (split_numeral b Hb).
  - apply andb_true_iff in Ha as [Hc Ha].
    rewrite (IH Ha), (is_digit_not_dash _ Hc). reflexivity.
Qed.

Lemma Number_numeral (a : string) :
  all_digits a = true -> Number a = Num (decimal a).
Proof. intros H. unfold Number. now rewrite H. Qed.

Lemma truthy_arg_nonempty (s : string) : s <> "" -> truthy_arg (Some s) = true.
Proof. intros H. simpl. now rewrite (string_eqb_empty _ H). Qed.

(** ** [getChapterRange] on an explicit expression *)

Section ChapterRange.

Variable w : World.
Variables translationId bookId : string.

(** A single numeral [N] gives [[N, N]], without any request. *)
Lemma getChapterRange_single (a : string) (st : State) :
  numeral a ->
  getChapterRange w translationId bookId (Some a) st
  = (Ok [Num (decimal a); Num (decimal a)], st).
Proof.
  intros [Ha Hne]. unfold getChapterRange.
  rewrite (truthy_arg_nonempty _ Hne). cbn [negb].
  assert (Hm : chapter_regex_match a = true)
    by (apply chapter_regex_match_iff; left; now split).
  cbn [arg_string]. rewrite Hm. cbn [negb]. rewrite (split_numeral _ Ha).
  rewrite (Number_numeral _ Ha). reflexivity.
Qed.

(** What a range expression [N-M] gives, in all cases. *)
Lemma getChapterRange_range (a b : string) (st : State) :
  numeral a -> numeral b ->
  getChapterRange w translationId bookId (Some (a ++ "-" ++ b)) st
  = (if N.eqb (decimal b) 0 then Ok [Num (decimal a); Num (decimal a)]
     else if N.leb (decimal b) (decimal a)
          then Throw (Error ("Invalid range: " ++ a ++ "-" ++ b))
          else Ok [Num (decimal a); Num (decimal b)],
     st).
Proof.
  intros [Ha Hane] [Hb Hbne]. unfold getChapterRange.
  assert (Hne : a ++ "-" ++ b <> "") by (destruct a; discriminate).
  rewrite (truthy_arg_nonempty _ Hne). cbn [negb].
  assert (Hm : chapter_regex_match (a ++ "-" ++ b) = true).
  { apply chapter_regex_match_iff. right. exists a, b. repeat split; assumption. }
  cbn [arg_string]. rewrite Hm. cbn [negb]. rewrite (split_range _ _ Ha Hb).
  rewrite (Number_numeral _ Ha). cbn [map nth_error].
  rewrite (Number_numeral _ Hb).
  unfold and_then_le, or_else, truthy_number, number_le, array_set_head.
  destruct (N.eqb (decimal b) 0); cbn [negb andb]; [reflexivity|].
  destruct (N.leb (decimal b) (decimal a)); reflexivity.
Qed.

(** Claim C1, where the code departs from it: a range whose end is
    written as zero is not rejected.  For every numeral [N] and every
    numeral [M] of value 0 the expression [N-M] is accepted and read as
    [[N, N]], although [M <= N]. *)
Theorem getChapterRange_zero_end_accepted (a b : string) (st : State) :
  numeral a -> numeral b -> decimal b = 0%N ->
  getChapterRange w translationId bookId (Some (a ++ "-" ++ b)) st
  = (Ok [Num (decimal a); Num (decimal a)], st).
Proof.
  intros Ha Hb Hz. rewrite (getChapterRange_range a b st Ha Hb), Hz. reflexivity.
Qed.

(** The rest of claim C1 holds: with [M > N] the range is [[N, M]]
    (for numbers that doubles hold exactly). *)
Lemma getChapterRange_range_ok (a b : string) (st : State) :
  numeral a -> numeral b -> (decimal a < decimal b <= 2 ^ 53)%N ->
  getChapterRange w translationId bookId (Some (a ++ "-" ++ b)) st
  = (Ok [Num (decimal a); Num (decimal b)], st).
Proof.
  intros Ha Hb [Hlt _]. rewrite (getChapterRange_range a b st Ha Hb).
  destruct (N.eqb_spec (decimal b) 0) as [E|_]; [lia|].
  destruct (N.leb_spec (decimal b) (decimal a)); [lia | reflexivity].
Qed.

(** And with [0 < M <= N] the expression is refused as an invalid range. *)
Lemma getChapterRange_range_invalid (a b : string) (st : State) :
  numeral a -> numeral b -> (0 < decimal b <= decimal a)%N ->
  getChapterRange w translationId bookId (Some (a ++ "-" ++ b)) st
  = (Throw (Error ("Invalid range: " ++ a ++ "-" ++ b)), st).
Proof.
  intros Ha Hb Hle. rewrite (getChapterRange_range a b st Ha Hb).
  destruct (N.eqb_spec (decimal b) 0) as [E|_]; [lia|].
  destruct (N.leb_spec (decimal b) (decimal a)); [reflexivity | lia].
Qed.

(** An explicit expression that is accepted gives a range of two numbers
    with [start <= end]. *)
Lemma getChapterRange_explicit_ordered (s : string) (st st' : State)
  (r : list number) :
  s <> "" ->
  getChapterRange w translationId bookId (Some s) st = (Ok r, st') ->
  exists a b, r = [Num a; Num b] /\ (a <= b)%N.
Proof.
  intros Hne H.
  destruct (chapter_regex_match s) eqn:Hm.
  - apply chapter_regex_match_iff in Hm as [Hs | (a & b & -> & Ha & Hb)].
    + rewrite (getChapterRange_single s st Hs) in H. inversion H; subst.
      exists (decimal s), (decimal s). split; [reflexivity | lia].
    + rewrite (getChapterRange_range a b st Ha Hb) in H.
      destruct (N.eqb_spec (decimal b) 0) as [E|E].
      * inversion H; subst. exists (decimal a), (decimal a).
        split; [reflexivity | lia].
      * destruct (N.leb_spec (decimal b) (decimal a)); [discriminate|].
        inversion H; subst. exists (decimal a), (decimal b).
        split; [reflexivity | lia].
  - unfold getChapterRange in H. rewrite (truthy_arg_nonempty _ Hne) in H.
    cbn [negb arg_string] in H. rewrite Hm in H. discriminate H.
Qed.

(** What the function does when no expression is given. *)
Lemma getChapterRange_default (arg : option string) (st : State)
  (json : JSON) :
  truthy_arg arg = false ->
  net w (requests st) (chapters_url translationId bookId) = inl json ->
  getChapterRange w translationId bookId arg st
  = (match prop (Some json) "items" with
     | Throw e => Throw e
     | Ok items =>
         if Array_isArray items
         then Ok [Num 1; Num (N.of_nat (List.length (elements items)))]
         else Throw (unexpected_response w json)
     end,
     logged_request ("Fetching chapters for " ++ bookId)
                    (chapters_url translationId bookId) st).
Proof.
  intros Harg Hnet. unfold getChapterRange. rewrite Harg. cbn [negb].
  unfold validateResponseHasItems, fetchJson, logged_request. js_unfold.
  cbn [requests add_line]. rewrite Hnet.
  destruct (prop (Some json) "items") as [items|e]; [|reflexivity].
  destruct (Array_isArray items); reflexivity.
Qed.

End ChapterRange.

Lemma getChapterRange_zero_end_accepted_witness :
  numeral "5" /\ numeral "0" /\ decimal "0" = 0%N /\
  getChapterRange sample_world "100" "GEN" (Some "5-0") initial
  = (Ok [Num 5; Num 5], initial).
Proof.
  assert (H5 : numeral "5") by (split; [reflexivity | discriminate]).
  assert (H0 : numeral "0") by (split; [reflexivity | discriminate]).
  refine (conj H5 (conj H0 (conj eq_refl _))).
  exact (getChapterRange_zero_end_accepted sample_world "100" "GEN" "5" "0"
           initial H5 H0 eq_refl).
Defined.

(** The boundary [M = N] of claim C1 is refused, as the claim says. *)
Example getChapterRange_equal_ends :
  fst (getChapterRange sample_world "100" "GEN" (Some "5-5") initial)
  = Throw (Error "Invalid range: 5-5").
Proof. reflexivity. Qed.

(** ** The invariant of a chapter range *)

(** Claim C2 fails as stated: the expression [0] is accepted and gives
    the range [[0, 0]], whose start is below 1 whatever the total is. *)
Lemma range_invariant_counterexample :
  fst (getChapterRange sample_world "100" "GEN" (Some "0") initial)
  = Ok [Num 0; Num 0]
  /\ forall total, ~ range_invariant [Num 0; Num 0] total.
Proof.
  split; [reflexivity|].
  intros total (s & e & Heq & Hs & _). inversion Heq; subst. lia.
Qed.

(** The end of an explicit range is not compared with the number of
    chapters either: Genesis has three chapters here, and [200] is
    accepted. *)
Example range_beyond_total :
  fst (getChapterRange sample_world "100" "GEN" None initial)
  = Ok [Num 1; Num 3]
  /\ fst (getChapterRange sample_world "100" "GEN" (Some "200") initial)
     = Ok [Num 200; Num 200].
Proof. split; reflexivity. Qed.

(** The revision that returns the total with the range shows both
    numbers side by side: the range [[200, 200]] for a book of three
    chapters. *)
Example range_beyond_total_revision :
  fst (Revision.getChapterRange sample_world "100" "GEN" (Some "200") initial)
  = Ok [Num 200; Num 200; Num 3]
  /\ fst (Revision.getChapterRange sample_world "100" "GEN" None initial)
     = Ok [Num 1; Num 3; Num 3].
Proof. split; reflexivity. Qed.

(** Claim C2, amended: a range built from an explicit expression has
    [start <= end] (nothing relates it to 1 or to the total); a
    defaulted range is [[1, total]], where [total] is the length of the
    chapter list the server returned. *)
Theorem getChapterRange_range_shape (w : World) (translationId bookId : string)
  (arg : option string) (st st' : State) (r : list number) :
  getChapterRange w translationId bookId arg st = (Ok r, st') ->
  (truthy_arg arg = true /\
   exists s e, r = [Num s; Num e] /\ (s <= e)%N) \/
  (truthy_arg arg = false /\
   exists json items,
     net w (requests st) (chapters_url translationId bookId) = inl json /\
     prop (Some json) "items" = Ok (Some (JArr items)) /\
     r = [Num 1; Num (N.of_nat (List.length items))]).
Proof.
  intros H. destruct (truthy_arg arg) eqn:Harg.
  - left. split; [reflexivity|].
    destruct arg as [s|]; [|discriminate].
    assert (Hne : s <> "") by (intros ->; discriminate).
    exact (getChapterRange_explicit_ordered w translationId bookId s st st' r Hne H).
  - right. split; [reflexivity|].
    destruct (net w (requests st) (chapters_url translationId bookId))
      as [json|rej] eqn:Hnet.
    + rewrite (getChapterRange_default w translationId bookId arg st json Harg Hnet) in H.
      destruct (prop (Some json) "items") as [items|e] eqn:Hp; [|discriminate].
      destruct items as [[ | | | |l| ]|]; cbn [Array_isArray elements] in H;
        try discriminate H.
      exists json, l. inversion H; subst.
      split; [reflexivity | split; [exact Hp | reflexivity]].
    + unfold getChapterRange in H. rewrite Harg in H. cbn [negb] in H.
      unfold fetchJson in H. js_unfold. cbn [requests add_line] in H.
      rewrite Hnet in H. discriminate H.
Qed.

Lemma getChapterRange_range_shape_witness :
  getChapterRange sample_world "100" "GEN" (Some "3-5") initial
  = (Ok [Num 3; Num 5], initial) /\
  ((truthy_arg (Some "3-5") = true /\
    exists s e, [Num 3; Num 5] = [Num s; Num e] /\ (s <= e)%N) \/
   (truthy_arg (Some "3-5") = false /\
    exists json items,
      net sample_world (requests initial) (chapters_url "100" "GEN") = inl json /\
      prop (Some json) "items" = Ok (Some (JArr items)) /\
      [Num 3; Num 5] = [Num 1; Num (N.of_nat (List.length items))])).
Proof.
  split; [reflexivity|].
  apply (getChapterRange_range_shape sample_world "100" "GEN" (Some "3-5")
           initial initial [Num 3; Num 5]).
  reflexivity.
Defined.

(** ** Expressions outside the grammar *)

(** The empty string is not a chapter expression: the grammar lists it
    with the absent argument, and [getChapterRange] reads it as such and
    gives the whole book. *)
Example empty_expression_is_absent :
  truthy_arg (Some "") = truthy_arg None /\
  getChapterRange sample_world "100" "GEN" (Some "") initial
  = getChapterRange sample_world "100" "GEN" None initial.
Proof. split; reflexivity. Qed.

(** Claim C7: every chapter expression (a non-empty string) that is
    neither a numeral nor two numerals joined by a dash is refused with
    the format error; no range is produced, and nothing is requested or
    printed before the error. *)
Theorem getChapterRange_invalid_format (w : World)
  (translationId bookId s : string) (st : State) :
  s <> "" -> ~ chapter_grammar s ->
  getChapterRange w translationId bookId (Some s) st
  = (Throw (Error "Chapter must be a number or a range (e.g. 3-5)"), st).
Proof.
  intros Hne Hg. unfold getChapterRange.
  rewrite (truthy_arg_nonempty _ Hne). cbn [negb arg_string].
  destruct (chapter_regex_match s) eqn:Hm.
  - exfalso. apply Hg. now apply chapter_regex_match_iff.
  - reflexivity.
Qed.

Lemma not_grammar_of_regex (s : string) :
  chapter_regex_match s = false -> ~ chapter_grammar s.
Proof.
  intros Hm Hg. apply chapter_regex_match_iff in Hg. congruence.
Qed.

Lemma getChapterRange_invalid_format_witness :
  "1-2-3" <> "" /\ ~ chapter_grammar "1-2-3" /\
  getChapterRange sample_world "100" "GEN" (Some "1-2-3") initial
  = (Throw (Error "Chapter must be a number or a range (e.g. 3-5)"), initial).
Proof.
  assert (Hne : "1-2-3" <> "") by discriminate.
  assert (Hg : ~ chapter_grammar "1-2-3")
    by (apply not_grammar_of_regex; reflexivity).
  refine (conj Hne (conj Hg _)).
  exact (getChapterRange_invalid_format sample_world "100" "GEN" "1-2-3"
           initial Hne Hg).
Defined.

(** The strings the specification names: letters, a negative number,
    several dashes. *)
Example regex_refuses :
  map chapter_regex_match ["abc"; "3a"; "-1"; "1-2-3"; "1-"; "3 - 5"]
  = [false; false; false; false; false; false].
Proof. reflexivity. Qed.

(** ** No expression: the whole book *)

(** Claim C8: with no chapter expression ([null], or the empty string)
    the chapter list of the book is requested once, and the range is
    [[1, T]], [T] being the length of the list in the answer. *)
Theorem getChapterRange_absent (w : World) (translationId bookId : string)
  (arg : option string) (st : State) (fields : list (string * JSON))
  (items : list JSON) :
  truthy_arg arg = false ->
  net w (requests st) (chapters_url translationId bookId) = inl (JObj fields) ->
  lookup "items" fields = Some (JArr items) ->
  getChapterRange w translationId bookId arg st
  = (Ok [Num 1; Num (N.of_nat (List.length items))],
     logged_request ("Fetching chapters for " ++ bookId)
                    (chapters_url translationId bookId) st).
Proof.
  intros Harg Hnet Hitems.
  rewrite (getChapterRange_default w translationId bookId arg st _ Harg Hnet).
  cbn [prop]. rewrite Hitems. reflexivity.
Qed.

Lemma getChapterRange_absent_witness :
  truthy_arg None = false /\
  getChapterRange sample_world "100" "GEN" None initial
  = (Ok [Num 1; Num 3],
     logged_request "Fetching chapters for GEN" (chapters_url "100" "GEN") initial).
Proof.
  split; [reflexivity|].
  exact (getChapterRange_absent sample_world "100" "GEN" None initial
           [("items", JArr sample_chapters)] sample_chapters
           eq_refl eq_refl eq_refl).
Defined.

(** ** The book list and its cache *)

Lemma prop_field (json : JSON) (k : string) :
  json <> JNull -> prop (Some json) k = Ok (field json k).
Proof. intros H. destruct json; try reflexivity. congruence. Qed.

Section BookList.

Variable w : World.

(** With the cache filled the function returns it and does nothing
    else, whatever translation is asked for. *)
Lemma fetchBookList_cached (translationId : string) (st : State)
  (cached : list JSON) :
  bookListCache st = Some cached ->
  fetchBookList w translationId st = (Ok cached, st).
Proof.
  intros H. unfold fetchBookList. js_unfold. rewrite H. reflexivity.
Qed.

(** With the cache empty there is one line, one request, and then the
    validation of the answer. *)
Lemma fetchBookList_fetch (translationId : string) (st : State) (json : JSON) :
  bookListCache st = None ->
  net w (requests st) (bookList_url translationId) = inl json ->
  fetchBookList w translationId st
  = let st1 := logged_request "Fetching books" (bookList_url translationId) st in
    match prop (Some json) "items" with
    | Throw e => (Throw e, st1)
    | Ok items =>
        if Array_isArray items
        then (Ok (elements items), set_bookListCache (Some (elements items)) st1)
        else (Throw (unexpected_response w json), st1)
    end.
Proof.
  intros Hc Hnet. unfold fetchBookList, validateResponseHasItems, fetchJson,
    logged_request.
  js_unfold. rewrite Hc. cbn [requests add_line]. rewrite Hnet.
  destruct (prop (Some json) "items") as [items|e]; [|reflexivity].
  destruct (Array_isArray items); reflexivity.
Qed.

Lemma fetchBookList_rejected (translationId : string) (st : State)
  (r : rejection) :
  bookListCache st = None ->
  net w (requests st) (bookList_url translationId) = inr r ->
  fetchBookList w translationId st
  = (Throw (FetchRejected r),
     logged_request "Fetching books" (bookList_url translationId) st).
Proof.
  intros Hc Hnet. unfold fetchBookList, fetchJson, logged_request.
  js_unfold. rewrite Hc. cbn [requests add_line]. rewrite Hnet. reflexivity.
Qed.

(** A call that returns a list leaves that list in the cache. *)
Lemma fetchBookList_fills_cache (translationId : string) (st st' : State)
  (items : list JSON) :
  fetchBookList w translationId st = (Ok items, st') ->
  bookListCache st' = Some items.
Proof.
  intros H. destruct (bookListCache st) as [cached|] eqn:Hc.
  - rewrite (fetchBookList_cached _ _ _ Hc) in H. inversion H; subst. exact Hc.
  - destruct (net w (requests st) (bookList_url translationId))
      as [json|r] eqn:Hnet.
    + rewrite (fetchBookList_fetch _ _ _ Hc Hnet) in H. cbv zeta in H.
      destruct (prop (Some json) "items") as [v|e]; [|discriminate H].
      destruct (Array_isArray v); [|discriminate H].
      inversion H; subst. reflexivity.
    + rewrite (fetchBookList_rejected _ _ _ Hc Hnet) in H. discriminate H.
Qed.

(** Every payload other than [null] that lacks an array [items] is
    refused with the error that carries the serialized payload; the cache
    stays empty, so nothing is taken for a book list. *)
Lemma fetchBookList_malformed (translationId : string) (st : State)
  (json : JSON) :
  bookListCache st = None ->
  net w (requests st) (bookList_url translationId) = inl json ->
  json <> JNull -> ~ has_items json ->
  fetchBookList w translationId st
  = (Throw (Error ("Unexpected response:" ++ String "010" (JSON_stringify w json))),
     logged_request "Fetching books" (bookList_url translationId) st)
  /\ bookListCache
       (logged_request "Fetching books" (bookList_url translationId) st) = None.
Proof.
  intros Hc Hnet Hnn Hni. rewrite (fetchBookList_fetch _ _ _ Hc Hnet). cbv zeta.
  rewrite (prop_field _ _ Hnn). split; [|exact Hc].
  destruct (field json "items") as [[ | | | |l| ]|] eqn:Hf; try reflexivity.
  exfalso. apply Hni. now exists l.
Qed.

End BookList.

(** Claim C5, where the code departs from it: the payload [null] has no
    list structure, and the attempt to read its [items] raises the
    engine's [TypeError] before the validation can refuse it with the
    error that carries the payload. *)
Theorem fetchBookList_null_payload (w : World) (translationId : string)
  (st : State) :
  bookListCache st = None ->
  net w (requests st) (bookList_url translationId) = inl JNull ->
  ~ has_items JNull /\
  fetchBookList w translationId st
  = (Throw TypeError,
     logged_request "Fetching books" (bookList_url translationId) st).
Proof.
  intros Hc Hnet. split.
  - intros [items H]. discriminate H.
  - rewrite (fetchBookList_fetch _ _ _ _ Hc Hnet). reflexivity.
Qed.

Lemma fetchBookList_null_payload_witness :
  bookListCache initial = None /\
  net null_world (requests initial) (bookList_url "100") = inl JNull /\
  ~ has_items JNull /\
  fetchBookList null_world "100" initial
  = (Throw TypeError, logged_request "Fetching books" (bookList_url "100") initial).
Proof.
  refine (conj eq_refl (conj eq_refl _)).
  exact (fetchBookList_null_payload null_world "100" initial eq_refl eq_refl).
Defined.

(** Claim C3 fails as stated: the cache filled for translation 100
    serves the call for translation 200, whose own list is another
    one. *)
Lemma cache_not_keyed_counterexample :
  exists st1,
    fetchBookList sample_world "100" initial = (Ok sample_books, st1) /\
    fetchBookList sample_world "200" st1 = (Ok sample_books, st1) /\
    requests st1 = [bookList_url "100"] /\
    fst (fetchBookList sample_world "200" initial) = Ok other_books /\
    sample_books <> other_books.
Proof.
  eexists. split; [reflexivity|]. split; [reflexivity|].
  split; [reflexivity|]. split; [reflexivity|]. discriminate.
Qed.

(** Claim C3, amended: the cache is one slot, not keyed.  Once a call
    has returned the book list, every later call, for the same or for
    another translation id, returns that list and leaves the state as it
    is: no request, no line on the console. *)
Theorem fetchBookList_memoized (w : World) (translationId translationId' : string)
  (st st' : State) (items : list JSON) :
  fetchBookList w translationId st = (Ok items, st') ->
  fetchBookList w translationId' st' = (Ok items, st')
  /\ requests (snd (fetchBookList w translationId' st')) = requests st'.
Proof.
  intros H. apply fetchBookList_fills_cache in H.
  rewrite (fetchBookList_cached w translationId' st' items H). split; reflexivity.
Qed.

Lemma fetchBookList_memoized_witness :
  fetchBookList sample_world "100" initial
  = (Ok sample_books,
     set_bookListCache (Some sample_books)
       (logged_request "Fetching books" (bookList_url "100") initial)) /\
  let st' := set_bookListCache (Some sample_books)
               (logged_request "Fetching books" (bookList_url "100") initial) in
  fetchBookList sample_world "100" st' = (Ok sample_books, st')
  /\ requests (snd (fetchBookList sample_world "100" st')) = requests st'.
Proof.
  split; [reflexivity|].
  exact (fetchBookList_memoized sample_world "100" "100" initial _ sample_books
           eq_refl).
Defined.

(** ** The state after several lines *)



(** ** Looking a book up *)

Lemma strict_eq_string_true (v : value) (s : string) :
  strict_eq_string v s = true <-> v = Some (JStr s).
Proof.
  destruct v as [[ | | |s'| | ]|]; simpl; try (split; [discriminate|congruence]).
  rewrite String.eqb_eq. split; [now intros -> | congruence].
Qed.

Lemma strict_eq_string_false (bookId : string) (item : JSON) :
  ~ has_code bookId item -> strict_eq_string (field item "usfm") bookId = false.
Proof.
  intros H. destruct (strict_eq_string (field item "usfm") bookId) eqn:E;
    [|reflexivity].
  apply strict_eq_string_true in E. contradiction.
Qed.


Lemma findIndex_from_first (bookId : string) (items : list JSON) (i k : nat)
  (item : JSON) :
  no_null_entry items -> first_with_code bookId items i item ->
  findIndex_from bookId items k = Ok (Some (k + i)%nat).
Proof.
  intros Hnn. revert i k.
  induction Hnn as [|item0 items Hitem0 _ IH]; intros i k (Hnth & Hcode & Hfirst).
  - destruct i; discriminate Hnth.
  - cbn [findIndex_from]. rewrite (prop_field _ _ Hitem0).
    destruct i as [|i].
    + inversion Hnth; subst item0.
      assert (E : strict_eq_string (field item "usfm") bookId = true)
        by now apply strict_eq_string_true.
      rewrite E, Nat.add_0_r. reflexivity.
    + rewrite (strict_eq_string_false _ _ (Hfirst 0%nat item0 (Nat.lt_0_succ i) eq_refl)).
      rewrite (IH i (S k)).
      * now rewrite Nat.add_succ_r.
      * split; [exact Hnth|]. split; [exact Hcode|].
        intros j item' Hj Hnth'. apply (Hfirst (S j) item'); [lia | exact Hnth'].
Qed.

(** A code that some entry carries has a first entry. *)
Lemma first_with_code_exists (bookId : string) (items : list JSON) :
  (exists item, In item items /\ has_code bookId item) ->
  exists i item, first_with_code bookId items i item.
Proof.
  induction items as [|item0 items IH]; intros (item & Hin & Hcode).
  - destruct Hin.
  - destruct (strict_eq_string (field item0 "usfm") bookId) eqn:E.
    + apply strict_eq_string_true in E.
      exists 0%nat, item0. split; [reflexivity|]. split; [exact E|].
      intros j item' Hj. lia.
    + assert (Hno : ~ has_code bookId item0).
      { intros H. apply strict_eq_string_true in H. congruence. }
      destruct Hin as [->|Hin]; [contradiction|].
      destruct (IH (ex_intro _ item (conj Hin Hcode)))
        as (i & first & Hnth & Hfc & Hbefore).
      exists (S i), first. split; [exact Hnth|]. split; [exact Hfc|].
      intros [|j] item' Hj Hnth'.
      * inversion Hnth'; subst item'. exact Hno.
      * apply (Hbefore j item'); [lia | exact Hnth'].
Qed.

Section Mkdir.

Variable w : World.
Variables translationId bookId : string.
Variable canonical : bool.




(** The first entry of the code is at position [i] and its name is the
    string [h]: the directory is named after it and created. *)
Lemma mkdir_found (items : list JSON) (st st1 : State) (i : nat)
  (item : JSON) (h : string) :
  fetchBookList w translationId st = (Ok items, st1) ->
  no_null_entry items ->
  first_with_code bookId items i item ->
  field item "human" = Some (JStr h) ->
  let dirname :=
    if canonical
    then padStart 2 "0" (String_of_N (N.of_nat (i + 1))) ++ "-" ++ replace_whitespace h
    else replace_whitespace h in
  let st2 := add_line (stdout, "Making directory " ++ dirname) st1 in
  mkdir w translationId bookId canonical st
  = match fs_mkdir w dirname with
    | None => (Ok dirname, add_dir dirname st2)
    | Some msg => (Throw (IoError msg), st2)
    end.
Proof.
  intros Hfetch Hnn Hfirst Hhuman dirname st2.
  unfold mkdir. unfold bind at 1. rewrite Hfetch.
  unfold bind at 1. unfold lift at 1. unfold findIndex.
  rewrite (findIndex_from_first bookId items i 0 item Hnn Hfirst).
  cbn [Nat.add]. destruct Hfirst as (Hnth & _ & _).
  assert (Hitem : item <> JNull).
  { unfold no_null_entry in Hnn. rewrite Forall_forall in Hnn.
    apply Hnn. eapply nth_error_In. exact Hnth. }
  unfold at_index. rewrite Hnth.
  unfold bind at 1. unfold lift at 1. rewrite (prop_field _ _ Hitem), Hhuman.
  unfold bind at 1. unfold lift at 1. cbn [replace_whitespace_of].
  fold dirname. unfold bind at 1. unfold console_log, modify. fold st2.
  unfold bind, fs_promises_mkdir.
  destruct (fs_mkdir w dirname) as [msg|]; reflexivity.
Qed.

End Mkdir.

(** ** Whitespace runs *)

Lemma replace_whitespace_from_no_leading (in_run : bool) (s : string) :
  no_leading_whitespace s ->
  replace_whitespace_from in_run s = replace_whitespace s.
Proof.
  unfold replace_whitespace.
  destruct s as [|c s]; [reflexivity|]. simpl. intros ->. reflexivity.
Qed.

Lemma replace_whitespace_from_run (run s : string) :
  all_whitespace run = true -> no_leading_whitespace s ->
  replace_whitespace_from true (run ++ s) = replace_whitespace s.
Proof.
  intros Hrun Hs. induction run as [|c run IH]; simpl in *.
  - now apply replace_whitespace_from_no_leading.
  - apply andb_true_iff in Hrun as [Hc Hrun]. rewrite Hc. now apply IH.
Qed.

(** A maximal run of whitespace is replaced by one underscore. *)
Lemma replace_whitespace_run (run s : string) :
  run <> "" -> all_whitespace run = true -> no_leading_whitespace s ->
  replace_whitespace (run ++ s) = String "_" (replace_whitespace s).
Proof.
  intros Hne Hrun Hs. destruct run as [|c run]; [congruence|].
  simpl in Hrun. apply andb_true_iff in Hrun as [Hc Hrun].
  unfold replace_whitespace at 1. simpl. rewrite Hc.
  now rewrite (replace_whitespace_from_run run s Hrun Hs).
Qed.

Lemma replace_whitespace_char (c : ascii) (s : string) :
  is_whitespace c = false ->
  replace_whitespace (String c s) = String c (replace_whitespace s).
Proof. intros Hc. unfold replace_whitespace. simpl. now rewrite Hc. Qed.

(** The relation of the specification determines the result, and the
    result is the one the code computes. *)
Lemma Collapsed_unique (s out : string) :
  Collapsed s out -> out = replace_whitespace s.
Proof.
  induction 1 as [|c s s' Hc _ IH|run s s' Hne Hrun Hs _ IH].
  - reflexivity.
  - now rewrite (replace_whitespace_char c s Hc), IH.
  - now rewrite (replace_whitespace_run run s Hne Hrun Hs), IH.
Qed.

Lemma whitespace_prefix (s : string) :
  exists run rest,
    s = run ++ rest /\ all_whitespace run = true /\ no_leading_whitespace rest /\
    (String.length rest <= String.length s)%nat.
Proof.
  induction s as [|c s (run & rest & Heq & Hrun & Hrest & Hlen)].
  - exists "", "". repeat split. simpl. lia.
  - destruct (is_whitespace c) eqn:Hc.
    + exists (String c run), rest. simpl. rewrite Hc, Hrun, <- Heq.
      repeat split; [exact Hrest | lia].
    + exists "", (String c s). simpl. repeat split; [exact Hc | lia].
Qed.

Lemma Collapsed_replace_whitespace (s : string) :
  Collapsed s (replace_whitespace s).
Proof.
  remember (String.length s) as n eqn:Hn.
  revert s Hn. induction n as [n IH] using lt_wf_ind. intros s Hn.
  destruct s as [|c s].
  - constructor.
  - destruct (is_whitespace c) eqn:Hc.
    + destruct (whitespace_prefix s) as (run & rest & Heq & Hrun & Hrest & Hlen).
      assert (Hrun' : all_whitespace (String c run) = true)
        by (simpl; now rewrite Hc, Hrun).
      assert (Hne : String c run <> "") by discriminate.
      replace (String c s) with (String c run ++ rest) by (simpl; now rewrite Heq).
      rewrite (replace_whitespace_run _ rest Hne Hrun' Hrest).
      apply Collapsed_run; try assumption.
      apply (IH (String.length rest)); [simpl in Hn; lia | reflexivity].
    + rewrite (replace_whitespace_char c s Hc).
      apply Collapsed_char; [exact Hc|].
      apply (IH (String.length s)); [simpl in Hn; lia | reflexivity].
Qed.

(** ** The position in two digits *)

Lemma padStart_two_digits (n : N) :
  padStart 2 "0" (String_of_N n) = two_digits n.
Proof.
  unfold two_digits, padStart, String_of_N.
  destruct (N.ltb_spec n 10) as [Hlt|Hge].
  - rewrite <- (N2Nat.id n).
    assert (Hm : (N.to_nat n < 10)%nat) by lia.
    destruct (N.to_nat n) as [|m]; [reflexivity|].
    do 9 (destruct m as [|m]; [reflexivity|]). lia.
  - pose proof (DecimalN.Unsigned.of_to n) as E.
    destruct (N.to_uint n) as [|d|d|d|d|d|d|d|d|d|d];
      try (cbv in E; lia);
      (destruct d; [cbv in E; lia | reflexivity ..]).
Qed.

Lemma padStart_position (i : nat) :
  padStart 2 "0" (String_of_N (N.of_nat (i + 1))) = two_digits (N.of_nat i + 1).
Proof.
  rewrite padStart_two_digits. f_equal. lia.
Qed.

Example two_digits_values :
  map two_digits [1; 3; 9; 10; 66; 100]%N = ["01"; "03"; "09"; "10"; "66"; "100"].
Proof. reflexivity. Qed.

(** ** Resolving a book *)

Lemma sample_books_no_null : no_null_entry sample_books.
Proof. repeat constructor; discriminate. Qed.

Lemma sample_books_LEV :
  first_with_code "LEV" sample_books 2 (book "LEV" "Leviticus").
Proof.
  split; [reflexivity|]. split; [reflexivity|].
  intros j item' Hj Hnth. destruct j as [|[|j]]; [| |lia];
    inversion Hnth; subst; discriminate.
Qed.





(** What is on the console when the code is unknown: the line of the
    fetch, then the three books on the error stream. *)
Example mkdir_unknown_code_console :
  console (snd (mkdir sample_world "100" "XYZ" false initial))
  = [(stdout, "Fetching books");
     (stderr, "GEN:" ++ String "009" "Genesis");
     (stderr, "EXO:" ++ String "009" "Exodus");
     (stderr, "LEV:" ++ String "009" "Leviticus")].
Proof. reflexivity. Qed.

(** ** The name of the directory *)

(** Claim C10: the directory of a book is named by its human name in
    which every whitespace run has become one underscore; in canonical
    mode the name is preceded by the position of the book in the list,
    counted from 1 and written with two digits at least, and a dash.
    That name is printed, passed to the directory creation and
    returned. *)
Theorem mkdir_directory_name (w : World) (translationId bookId : string)
  (canonical : bool) (st st1 : State) (items : list JSON)
  (i : nat) (item : JSON) (h : string) :
  fetchBookList w translationId st = (Ok items, st1) ->
  no_null_entry items ->
  first_with_code bookId items i item ->
  field item "human" = Some (JStr h) ->
  exists name,
    Collapsed h name /\
    let dirname :=
      if canonical then two_digits (N.of_nat i + 1) ++ "-" ++ name else name in
    mkdir w translationId bookId canonical st
    = match fs_mkdir w dirname with
      | None =>
          (Ok dirname,
           add_dir dirname (add_line (stdout, "Making directory " ++ dirname) st1))
      | Some msg =>
          (Throw (IoError msg),
           add_line (stdout, "Making directory " ++ dirname) st1)
      end.
Proof.
  intros Hfetch Hnn Hfirst Hhuman.
  exists (replace_whitespace h). split; [apply Collapsed_replace_whitespace|].
  pose proof (mkdir_found w translationId bookId canonical items st st1 i item h
                Hfetch Hnn Hfirst Hhuman) as H.
  cbv zeta in *. rewrite (padStart_position i) in H. exact H.
Qed.

Lemma mkdir_directory_name_witness :
  fetchBookList sample_world "100" initial
  = (Ok sample_books,
     set_bookListCache (Some sample_books)
       (logged_request "Fetching books" (bookList_url "100") initial)) /\
  no_null_entry sample_books /\
  first_with_code "LEV" sample_books 2 (book "LEV" "Leviticus") /\
  field (book "LEV" "Leviticus") "human" = Some (JStr "Leviticus") /\
  fst (mkdir sample_world "100" "LEV" true initial) = Ok "03-Leviticus".
Proof.
  refine (conj eq_refl (conj sample_books_no_null
            (conj sample_books_LEV (conj eq_refl _)))).
  destruct (mkdir_directory_name sample_world "100" "LEV" true initial _
              sample_books 2 (book "LEV" "Leviticus") "Leviticus"
              eq_refl sample_books_no_null sample_books_LEV eq_refl)
    as (name & Hname & Hrun).
  apply Collapsed_unique in Hname. subst name.
  cbv zeta in Hrun. rewrite Hrun. reflexivity.
Defined.

(** Names with several words, and with runs of several blanks. *)
Example replace_whitespace_values :
  map replace_whitespace ["Song of Songs"; "1  Samuel"; " Job "; "Ruth"]
  = ["Song_of_Songs"; "1_Samuel"; "_Job_"; "Ruth"].
Proof. reflexivity. Qed.

(** ** The metadata of a chapter *)

Lemma prop_truthy (v : value) (k : string) :
  truthy v = true -> prop v k = Ok (field_of v k).
Proof.
  destruct v as [[ | | | | | ]|]; cbn [truthy prop field_of field]; intros H;
    try reflexivity; discriminate H.
Qed.

Lemma field_of_falsy (v : value) (k : string) :
  truthy v = false -> field_of v k = None.
Proof.
  destruct v as [[ | | | | | ]|]; cbn [truthy field_of field]; intros H;
    try reflexivity; discriminate H.
Qed.

Section Metadata.

Variable w : World.

(** The validation refuses exactly the answers that are not well formed
    (the answer and its first audio entry not being [null]). *)
Lemma validateMetadataResponse_run (json : JSON) (st : State) :
  json <> JNull -> first_audio_entry json <> Some JNull ->
  validateMetadataResponse w json st
  = (if metadata_well_formed json then Ok tt
     else Throw (unexpected_response w json), st).
Proof.
  intros Hnn Hfirst.
  unfold validateMetadataResponse, metadata_well_formed, first_audio_entry in *.
  unfold reference_human, entry_url.
  js_unfold. rewrite !(prop_field json _ Hnn).
  destruct (field json "audio") as [[ | | | |[|entry rest]| ]|]; try reflexivity.
  cbn [Array_isArray negb elements List.length Nat.eqb at_index nth_error].
  assert (Hentry : entry <> JNull) by congruence.
  rewrite (prop_field entry _ Hentry).
  destruct (truthy (field entry "download_urls")) eqn:Hdu; cbn [negb].
  - rewrite (prop_truthy _ "format_mp3_32k" Hdu).
    destruct (truthy (field_of (field entry "download_urls") "format_mp3_32k"));
      cbn [negb andb]; [|reflexivity].
    destruct (truthy (field json "reference")) eqn:Href; cbn [negb].
    + rewrite (prop_truthy _ "human" Href).
      destruct (truthy (field_of (field json "reference") "human")); reflexivity.
    + now rewrite (field_of_falsy _ "human" Href).
  - now rewrite (field_of_falsy _ "format_mp3_32k" Hdu).
Qed.

(** [fetchMetadata] on an answer, in all cases but [null]. *)
Lemma fetchMetadata_run (translationId bookId : string) (chapter : N)
  (st : State) (json : JSON) :
  net w (requests st) (metaUrl translationId bookId chapter) = inl json ->
  json <> JNull -> first_audio_entry json <> Some JNull ->
  fetchMetadata w translationId bookId chapter st
  = (match first_audio_entry json with
     | Some entry =>
         if truthy (entry_url entry) && truthy (reference_human json) then
           match entry_url entry with
           | Some (JStr url) =>
               Ok (mkMetadata (normalize_url url) (reference_human json))
           | _ => Throw TypeError
           end
         else Throw (unexpected_response w json)
     | None => Throw (unexpected_response w json)
     end,
     metadata_requested translationId bookId chapter st).
Proof.
  intros Hnet Hnn Hfirst. unfold fetchMetadata, fetchJson, metadata_requested,
    logged_request.
  js_unfold. cbn [requests add_line]. rewrite Hnet.
  rewrite (validateMetadataResponse_run json _ Hnn Hfirst).
  unfold metadata_well_formed.
  destruct (first_audio_entry json) as [entry|] eqn:Hentry; [|reflexivity].
  destruct (truthy (entry_url entry)) eqn:Hurl; [|reflexivity].
  destruct (truthy (reference_human json)) eqn:Hhuman; [|reflexivity].
  cbn [andb]. rewrite !(prop_field json _ Hnn).
  assert (Href : truthy (field json "reference") = true).
  { destruct (truthy (field json "reference")) eqn:E; [reflexivity|].
    unfold reference_human in Hhuman.
    rewrite (field_of_falsy _ "human" E) in Hhuman. discriminate Hhuman. }
  rewrite (prop_truthy _ "human" Href).
  unfold first_audio_entry in Hentry.
  destruct (field json "audio") as [[ | | | |[|entry' rest]| ]|];
    try discriminate Hentry.
  inversion Hentry; subst entry'.
  cbn [elements at_index nth_error].
  assert (Hen : entry <> JNull) by (intros ->; discriminate Hurl).
  rewrite (prop_field entry _ Hen).
  assert (Hdu : truthy (field entry "download_urls") = true).
  { destruct (truthy (field entry "download_urls")) eqn:E; [reflexivity|].
    unfold entry_url in Hurl.
    rewrite (field_of_falsy _ "format_mp3_32k" E) in Hurl. discriminate Hurl. }
  rewrite (prop_truthy _ "format_mp3_32k" Hdu).
  fold (entry_url entry). fold (reference_human json).
  destruct (entry_url entry) as [[ | | |url| | ]|]; reflexivity.
Qed.

(** An answer that is not well formed is refused with the error that
    carries the serialized payload. *)
Lemma fetchMetadata_malformed (translationId bookId : string) (chapter : N)
  (st : State) (json : JSON) :
  net w (requests st) (metaUrl translationId bookId chapter) = inl json ->
  json <> JNull -> first_audio_entry json <> Some JNull ->
  metadata_well_formed json = false ->
  fetchMetadata w translationId bookId chapter st
  = (Throw (Error ("Unexpected response:" ++ String "010" (JSON_stringify w json))),
     metadata_requested translationId bookId chapter st).
Proof.
  intros Hnet Hnn Hfirst Hbad.
  rewrite (fetchMetadata_run _ _ _ _ json Hnet Hnn Hfirst).
  unfold metadata_well_formed in Hbad.
  destruct (first_audio_entry json) as [entry|]; [|reflexivity].
  rewrite Hbad. reflexivity.
Qed.

(** A well-formed answer whose address is a string is accepted. *)
Lemma fetchMetadata_ok (translationId bookId : string) (chapter : N)
  (st : State) (json entry : JSON) (url : string) :
  net w (requests st) (metaUrl translationId bookId chapter) = inl json ->
  first_audio_entry json = Some entry ->
  entry_url entry = Some (JStr url) -> url <> "" ->
  truthy (reference_human json) = true ->
  fetchMetadata w translationId bookId chapter st
  = (Ok (mkMetadata (normalize_url url) (reference_human json)),
     metadata_requested translationId bookId chapter st).
Proof.
  intros Hnet Hentry Hurl Hne Hhuman.
  assert (Hnn : json <> JNull) by (intros ->; discriminate Hentry).
  assert (Hfirst : first_audio_entry json <> Some JNull).
  { rewrite Hentry. intros E. inversion E; subst entry. discriminate Hurl. }
  rewrite (fetchMetadata_run _ _ _ _ json Hnet Hnn Hfirst).
  rewrite Hentry, Hurl, Hhuman. cbn [truthy].
  rewrite (string_eqb_empty _ Hne). reflexivity.
Qed.

End Metadata.

Lemma startsWith_slashes (url : string) :
  startsWith "//" url = true <-> exists rest, url = "//" ++ rest.
Proof.
  unfold startsWith. split.
  - destruct url as [|c1 [|c2 rest]]; cbn [String.prefix].
    + intros H. discriminate H.
    + destruct (ascii_dec "/" c1); intros H; discriminate H.
    + destruct (ascii_dec "/" c1) as [<-|]; [|intros H; discriminate H].
      destruct (ascii_dec "/" c2) as [<-|]; [|intros H; discriminate H].
      intros _. now exists rest.
  - intros [rest ->]. cbn [append String.prefix].
    destruct (ascii_dec "/" "/") as [_|n]; [|now destruct n].
    destruct rest; reflexivity.
Qed.

(** Claim C4 fails as stated, in both directions: an answer whose second
    audio entry has no map of addresses is accepted, and an answer whose
    audio entries are all as expected is refused when the chapter name is
    missing. *)
Lemma metadata_validation_counterexample :
  (In (JObj []) (elements (field metadata_second_entry_bare "audio")) /\
   entry_url (JObj []) = None /\
   fst (fetchMetadata sample_world "100" "GEN" 2 initial)
   = Ok (mkMetadata "https://host/gen2.mp3" (Some (JStr "Genesis 2")))) /\
  (elements (field metadata_without_reference "audio")
   = [audio_entry "https://host/gen3.mp3"] /\
   fst (fetchMetadata sample_world "100" "GEN" 3 initial)
   = Throw (Error ("Unexpected response:" ++ String "010" "{}"))).
Proof.
  split; split.
  - right. left. reflexivity.
  - split; reflexivity.
  - reflexivity.
  - reflexivity.
Qed.

(** Claim C4, amended: an answer other than [null] is refused with the
    error whose message ends with the serialized payload when it has no
    non-empty audio list, when the first entry of that list (not [null])
    gives no address under the key of the format, or when it has no
    chapter name; entries after the first are not looked at.  An answer
    whose first entry gives a non-empty string as address and which has a
    chapter name is accepted. *)
Theorem fetchMetadata_validation (w : World) (translationId bookId : string)
  (chapter : N) (st : State) (json : JSON) :
  net w (requests st) (metaUrl translationId bookId chapter) = inl json ->
  json <> JNull -> first_audio_entry json <> Some JNull ->
  (first_audio_entry json = None \/
   (exists entry, first_audio_entry json = Some entry /\
                  truthy (entry_url entry) = false) \/
   truthy (reference_human json) = false ->
   fetchMetadata w translationId bookId chapter st
   = (Throw (Error ("Unexpected response:" ++
                    String "010" (JSON_stringify w json))),
      metadata_requested translationId bookId chapter st))
  /\
  (forall entry url,
     first_audio_entry json = Some entry ->
     entry_url entry = Some (JStr url) -> url <> "" ->
     truthy (reference_human json) = true ->
     fetchMetadata w translationId bookId chapter st
     = (Ok (mkMetadata (normalize_url url) (reference_human json)),
        metadata_requested translationId bookId chapter st)).
Proof.
  intros Hnet Hnn Hfirst. split.
  - intros Hbad. apply (fetchMetadata_malformed w _ _ _ _ json Hnet Hnn Hfirst).
    unfold metadata_well_formed.
    destruct Hbad as [-> | [(entry & -> & ->) | Hh]]; try reflexivity.
    destruct (first_audio_entry json); [|reflexivity].
    rewrite Hh. apply andb_false_r.
  - intros entry url. apply (fetchMetadata_ok w _ _ _ _ json entry url Hnet).
Qed.

Lemma fetchMetadata_validation_witness :
  net sample_world (requests initial) (metaUrl "100" "GEN" 4)
  = inl metadata_first_entry_bare /\
  metadata_first_entry_bare <> JNull /\
  first_audio_entry metadata_first_entry_bare <> Some JNull /\
  fetchMetadata sample_world "100" "GEN" 4 initial
  = (Throw (Error ("Unexpected response:" ++ String "010" "{}")),
     metadata_requested "100" "GEN" 4 initial).
Proof.
  assert (Hnn : metadata_first_entry_bare <> JNull) by discriminate.
  assert (Hfirst : first_audio_entry metadata_first_entry_bare <> Some JNull)
    by discriminate.
  refine (conj eq_refl (conj Hnn (conj Hfirst _))).
  apply (fetchMetadata_validation sample_world "100" "GEN" 4 initial
           metadata_first_entry_bare eq_refl Hnn Hfirst).
  right. left. exists (JObj []). split; reflexivity.
Defined.

(** ** The address of the audio file *)

(** Claim C9: when the address is resolved, an address [//rest] is
    returned as [https://rest], and an address that does not begin with
    two slashes is returned as it is. *)
Theorem fetchMetadata_normalizes_url (w : World) (translationId bookId : string)
  (chapter : N) (st : State) (json entry : JSON) (url : string) :
  net w (requests st) (metaUrl translationId bookId chapter) = inl json ->
  first_audio_entry json = Some entry ->
  entry_url entry = Some (JStr url) -> url <> "" ->
  truthy (reference_human json) = true ->
  exists m,
    fetchMetadata w translationId bookId chapter st
    = (Ok m, metadata_requested translationId bookId chapter st) /\
    (forall rest, url = "//" ++ rest -> audioUrl m = "https://" ++ rest) /\
    ((forall rest, url <> "//" ++ rest) -> audioUrl m = url).
Proof.
  intros Hnet Hentry Hurl Hne Hhuman.
  exists (mkMetadata (normalize_url url) (reference_human json)).
  split; [exact (fetchMetadata_ok w _ _ _ _ json entry url Hnet Hentry Hurl Hne Hhuman)|].
  cbn [audioUrl]. unfold normalize_url. split.
  - intros rest ->.
    assert (E : startsWith "//" ("//" ++ rest) = true)
      by (apply startsWith_slashes; now exists rest).
    rewrite E. reflexivity.
  - intros Hno. destruct (startsWith "//" url) eqn:E; [|reflexivity].
    apply startsWith_slashes in E as [rest ->]. now destruct (Hno rest).
Qed.

Lemma fetchMetadata_normalizes_url_witness :
  net sample_world (requests initial) (metaUrl "100" "GEN" 1) = inl sample_metadata /\
  first_audio_entry sample_metadata = Some (audio_entry "//host/path") /\
  entry_url (audio_entry "//host/path") = Some (JStr "//host/path") /\
  "//host/path" <> "" /\
  truthy (reference_human sample_metadata) = true /\
  exists m,
    fetchMetadata sample_world "100" "GEN" 1 initial
    = (Ok m, metadata_requested "100" "GEN" 1 initial) /\
    audioUrl m = "https://host/path".
Proof.
  assert (Hne : "//host/path" <> "") by discriminate.
  refine (conj eq_refl (conj eq_refl (conj eq_refl (conj Hne (conj eq_refl _))))).
  destruct (fetchMetadata_normalizes_url sample_world "100" "GEN" 1 initial
              sample_metadata (audio_entry "//host/path") "//host/path"
              eq_refl eq_refl eq_refl Hne eq_refl) as (m & Hrun & Hslashes & _).
  exists m. split; [exact Hrun | exact (Hslashes "host/path" eq_refl)].
Defined.

Example normalize_url_values :
  map normalize_url ["//host/path"; "https://host/path"; "/host/path"; "http://h//p"]
  = ["https://host/path"; "https://host/path"; "/host/path"; "http://h//p"].
Proof. reflexivity. Qed.

(** * Further properties of the code *)

(** ** Numbers written in decimal *)

Lemma all_digits_string_of_uint (d : Decimal.uint) :
  all_digits (NilEmpty.string_of_uint d) = true.
Proof. induction d; simpl; auto. Qed.

Lemma decimal_from_pos (d : Decimal.uint) (p : positive) :
  decimal_from (Npos p) (NilEmpty.string_of_uint d) = Npos (Pos.of_uint_acc d p).
Proof.
  revert p. induction d; intros p; cbn [NilEmpty.string_of_uint decimal_from Pos.of_uint_acc];
    [reflexivity
    | rewrite <- IHd; f_equal;
      match goal with
      | |- context [digit_value ?c] =>
          let v := eval vm_compute in (digit_value c) in
          change (digit_value c) with v
      end; lia ..].
Qed.

Lemma decimal_from_uint (d : Decimal.uint) :
  decimal_from 0 (NilEmpty.string_of_uint d) = N.of_uint d.
Proof.
  unfold N.of_uint.
  induction d; cbn [NilEmpty.string_of_uint decimal_from Pos.of_uint];
    [reflexivity | exact IHd | apply decimal_from_pos ..].
Qed.

(** Reading the decimal writing of a number gives the number back. *)
Lemma decimal_String_of_N (n : N) : decimal (String_of_N n) = n.
Proof.
  unfold decimal, String_of_N. rewrite decimal_from_uint.
  apply DecimalN.Unsigned.of_to.
Qed.

Lemma numeral_String_of_N (n : N) : numeral (String_of_N n).
Proof.
  split; [apply all_digits_string_of_uint|].
  unfold String_of_N. intros H.
  pose proof (DecimalN.Unsigned.of_to n) as E.
  destruct (N.to_uint n) eqn:Hd; try discriminate H.
  cbv in E. subst n. discriminate Hd.
Qed.

Lemma nzhead_no_zero (d d' : Decimal.uint) : Decimal.nzhead d <> Decimal.D0 d'.
Proof. induction d; cbn [Decimal.nzhead]; try discriminate. exact IHd. Qed.

Lemma to_uint_no_zero (n : N) (d : Decimal.uint) :
  N.to_uint n = Decimal.D0 d -> n = 0%N /\ d = Decimal.Nil.
Proof.
  intros H.
  pose proof (DecimalN.Unsigned.to_of (N.to_uint n)) as E.
  rewrite DecimalN.Unsigned.of_to, H in E.
  unfold Decimal.unorm in E. cbn [Decimal.nzhead] in E.
  destruct (Decimal.nzhead d) eqn:Hz;
    try discriminate E;
    try (exfalso; exact (nzhead_no_zero _ _ Hz)).
  inversion E; subst d. split; [|reflexivity].
  rewrite <- (DecimalN.Unsigned.of_to n), H. reflexivity.
Qed.

(** Only the number 0 is written with a zero in front. *)
Lemma String_of_N_leading_zero (n : N) :
  String.prefix "0" (String_of_N n) = true -> n = 0%N /\ String_of_N n = "0".
Proof.
  unfold String_of_N. intros H.
  destruct (N.to_uint n) as [|d|d|d|d|d|d|d|d|d|d] eqn:E;
    cbn [NilEmpty.string_of_uint String.prefix] in H;
    try discriminate H;
    try (destruct (ascii_dec "0" _) as [Heq|_] in H;
         [discriminate Heq | discriminate H]).
  destruct (to_uint_no_zero n d E) as [-> ->]. split; reflexivity.
Qed.

Lemma String_of_N_written (n : N) : written_in_decimal n (String_of_N n).
Proof.
  split; [apply numeral_String_of_N|].
  split; [apply decimal_String_of_N | apply String_of_N_leading_zero].
Qed.

Lemma numeral_zeros (k : nat) (a : string) :
  numeral a -> numeral (repeat_char "0" k ++ a) /\
               decimal (repeat_char "0" k ++ a) = decimal a.
Proof.
  intros [Ha Hne]. induction k as [|k [[IHd IHne] IHv]].
  - repeat split; assumption.
  - repeat split.
    + simpl. exact IHd.
    + discriminate.
    + exact IHv.
Qed.

(** ** More on [getChapterRange] *)

Lemma getChapterRange_invalid_format_run (w : World)
  (translationId bookId s : string) (st : State) :
  s <> "" -> chapter_regex_match s = false ->
  getChapterRange w translationId bookId (Some s) st
  = (Throw (Error "Chapter must be a number or a range (e.g. 3-5)"), st).
Proof.
  intros Hne Hm. unfold getChapterRange.
  rewrite (truthy_arg_nonempty _ Hne). cbn [negb arg_string].
  now rewrite Hm.
Qed.

(** A single chapter number (up to 2^53, which [Number] converts
    exactly), written in decimal with or without zeros in front, gives
    the range of that one chapter; nothing is requested or printed. *)
Theorem getChapterRange_one_chapter (w : World) (translationId bookId : string)
  (k : nat) (n : N) (st : State) :
  (n <= 2 ^ 53)%N ->
  getChapterRange w translationId bookId
    (Some (repeat_char "0" k ++ String_of_N n)) st
  = (Ok [Num n; Num n], st).
Proof.
  intros _.
  destruct (numeral_zeros k _ (numeral_String_of_N n)) as [Hnum Hval].
  rewrite (getChapterRange_single w translationId bookId _ st Hnum).
  now rewrite Hval, decimal_String_of_N.
Qed.

Lemma getChapterRange_one_chapter_witness :
  (7 <= 2 ^ 53)%N /\
  getChapterRange sample_world "100" "PSA" (Some "007") initial
  = (Ok [Num 7; Num 7], initial).
Proof.
  assert (H : (7 <= 2 ^ 53)%N) by discriminate.
  split; [exact H|].
  exact (getChapterRange_one_chapter sample_world "100" "PSA" 2 7 initial H).
Defined.

(** An ascending range [N-M], both numbers written in decimal, gives
    [[N, M]]. *)
Theorem getChapterRange_ascending_range (w : World)
  (translationId bookId : string) (n m : N) (st : State) :
  (n < m <= 2 ^ 53)%N ->
  getChapterRange w translationId bookId
    (Some (String_of_N n ++ "-" ++ String_of_N m)) st
  = (Ok [Num n; Num m], st).
Proof.
  intros H.
  rewrite (getChapterRange_range_ok w translationId bookId _ _ st
             (numeral_String_of_N n) (numeral_String_of_N m));
    rewrite !decimal_String_of_N; [reflexivity | exact H].
Qed.

Lemma getChapterRange_ascending_range_witness :
  (27 < 34 <= 2 ^ 53)%N /\
  getChapterRange sample_world "100" "PSA" (Some "27-34") initial
  = (Ok [Num 27; Num 34], initial).
Proof.
  assert (H : (27 < 34 <= 2 ^ 53)%N) by (split; reflexivity || discriminate).
  split; [exact H|].
  exact (getChapterRange_ascending_range sample_world "100" "PSA" 27 34 initial H).
Defined.

(** A range whose end is positive and not above its start is refused;
    the message quotes the expression, and nothing is requested or
    printed. *)
Theorem getChapterRange_descending_range (w : World)
  (translationId bookId : string) (n m : N) (st : State) :
  (0 < m <= n)%N ->
  getChapterRange w translationId bookId
    (Some (String_of_N n ++ "-" ++ String_of_N m)) st
  = (Throw (Error ("Invalid range: " ++ String_of_N n ++ "-" ++ String_of_N m)),
     st).
Proof.
  intros H.
  apply (getChapterRange_range_invalid w translationId bookId _ _ st
           (numeral_String_of_N n) (numeral_String_of_N m)).
  now rewrite !decimal_String_of_N.
Qed.

Lemma getChapterRange_descending_range_witness :
  (0 < 3 <= 5)%N /\
  getChapterRange sample_world "100" "PSA" (Some "5-3") initial
  = (Throw (Error "Invalid range: 5-3"), initial).
Proof.
  assert (H : (0 < 3 <= 5)%N) by (split; reflexivity || discriminate).
  split; [exact H|].
  exact (getChapterRange_descending_range sample_world "100" "PSA" 5 3 initial H).
Defined.

(** The regular expression of the chapter argument accepts a string
    exactly when it is a numeral or two numerals joined by one dash. *)
Theorem chapter_regex_language (s : string) :
  chapter_regex_match s = true <->
  numeral s \/ exists a b, s = a ++ "-" ++ b /\ numeral a /\ numeral b.
Proof.
  split; intros H.
  - apply chapter_regex_match_iff in H. exact H.
  - apply chapter_regex_match_iff. exact H.
Qed.

(** With an explicit expression the function works offline: whatever the
    expression and the outcome, the state is left as it was. *)
Theorem getChapterRange_explicit_offline (w : World)
  (translationId bookId s : string) (st : State) :
  s <> "" ->
  snd (getChapterRange w translationId bookId (Some s) st) = st.
Proof.
  intros Hne. destruct (chapter_regex_match s) eqn:Hm.
  - apply chapter_regex_match_iff in Hm as [Hs | (a & b & -> & Ha & Hb)].
    + now rewrite (getChapterRange_single w _ _ s st Hs).
    + now rewrite (getChapterRange_range w _ _ a b st Ha Hb).
  - rewrite (getChapterRange_invalid_format_run w translationId bookId s st Hne Hm).
    reflexivity.
Qed.

Lemma getChapterRange_explicit_offline_witness :
  "12-4" <> "" /\
  snd (getChapterRange sample_world "100" "GEN" (Some "12-4") initial) = initial.
Proof.
  assert (Hne : "12-4" <> "") by discriminate.
  split; [exact Hne|].
  exact (getChapterRange_explicit_offline sample_world "100" "GEN" "12-4"
           initial Hne).
Defined.

Lemma getChapterRange_default_rejected (w : World)
  (translationId bookId : string) (arg : option string) (st : State)
  (r : rejection) :
  truthy_arg arg = false ->
  net w (requests st) (chapters_url translationId bookId) = inr r ->
  getChapterRange w translationId bookId arg st
  = (Throw (FetchRejected r),
     logged_request ("Fetching chapters for " ++ bookId)
                    (chapters_url translationId bookId) st).
Proof.
  intros Harg Hnet. unfold getChapterRange. rewrite Harg. cbn [negb].
  unfold fetchJson, logged_request. js_unfold. cbn [requests add_line].
  now rewrite Hnet.
Qed.

(** With no expression, a chapter list that cannot be had is an error
    and never an empty range: a rejected request throws the rejection,
    and an answer (other than [null]) without an array [items] throws the
    error that carries the payload.  In both cases there was one line
    and one request. *)
Theorem getChapterRange_absent_failure (w : World)
  (translationId bookId : string) (arg : option string) (st : State) :
  truthy_arg arg = false ->
  let st1 := logged_request ("Fetching chapters for " ++ bookId)
                            (chapters_url translationId bookId) st in
  (forall r,
     net w (requests st) (chapters_url translationId bookId) = inr r ->
     getChapterRange w translationId bookId arg st
     = (Throw (FetchRejected r), st1))
  /\
  (forall json,
     net w (requests st) (chapters_url translationId bookId) = inl json ->
     json <> JNull -> ~ has_items json ->
     getChapterRange w translationId bookId arg st
     = (Throw (Error ("Unexpected response:" ++
                      String "010" (JSON_stringify w json))), st1)).
Proof.
  intros Harg st1. split.
  - intros r Hnet.
    exact (getChapterRange_default_rejected w _ _ arg st r Harg Hnet).
  - intros json Hnet Hnn Hni.
    rewrite (getChapterRange_default w translationId bookId arg st json Harg Hnet).
    rewrite (prop_field _ _ Hnn).
    destruct (field json "items") as [[ | | | |l| ]|] eqn:Hf; try reflexivity.
    exfalso. apply Hni. now exists l.
Qed.

Lemma getChapterRange_absent_failure_witness :
  truthy_arg None = false /\
  getChapterRange sample_world "100" "XYZ" None initial
  = (Throw (FetchRejected NetworkError),
     logged_request "Fetching chapters for XYZ" (chapters_url "100" "XYZ") initial)
  /\
  getChapterRange empty_object_world "100" "GEN" None initial
  = (Throw (Error ("Unexpected response:" ++ String "010" "{}")),
     logged_request "Fetching chapters for GEN" (chapters_url "100" "GEN") initial).
Proof.
  split; [reflexivity|]. split.
  - exact (proj1 (getChapterRange_absent_failure sample_world "100" "XYZ" None
                    initial eq_refl) NetworkError eq_refl).
  - apply (proj2 (getChapterRange_absent_failure empty_object_world "100" "GEN"
                    None initial eq_refl) (JObj []) eq_refl).
    + discriminate.
    + intros [items H]. discriminate H.
Defined.

(** ** The revision that keeps the chapter count *)

(** In that revision the format of an explicit expression is checked
    before anything is requested. *)
Theorem Revision_format_checked_first (w : World)
  (translationId bookId s : string) (st : State) :
  s <> "" -> ~ chapter_grammar s ->
  Revision.getChapterRange w translationId bookId (Some s) st
  = (Throw (Error "Chapter must be a number or a range (e.g. 3-5)"), st).
Proof.
  intros Hne Hg. unfold Revision.getChapterRange.
  rewrite (truthy_arg_nonempty _ Hne). cbn [arg_string andb].
  destruct (chapter_regex_match s) eqn:Hm.
  - exfalso. apply Hg. now apply chapter_regex_match_iff.
  - reflexivity.
Qed.

Lemma Revision_format_checked_first_witness :
  "3a" <> "" /\ ~ chapter_grammar "3a" /\
  Revision.getChapterRange sample_world "100" "GEN" (Some "3a") initial
  = (Throw (Error "Chapter must be a number or a range (e.g. 3-5)"), initial).
Proof.
  assert (Hne : "3a" <> "") by discriminate.
  assert (Hg : ~ chapter_grammar "3a") by (apply not_grammar_of_regex; reflexivity).
  refine (conj Hne (conj Hg _)).
  exact (Revision_format_checked_first sample_world "100" "GEN" "3a" initial Hne Hg).
Defined.

(** For an expression of the grammar and a chapter list of [T] entries,
    that revision fetches the list and returns what [getChapterRange]
    returns, followed by [T]; it throws what [getChapterRange] throws. *)
Theorem Revision_appends_total (w : World) (translationId bookId s : string)
  (st : State) (fields : list (string * JSON)) (items : list JSON) :
  chapter_grammar s ->
  net w (requests st) (chapters_url translationId bookId) = inl (JObj fields) ->
  lookup "items" fields = Some (JArr items) ->
  Revision.getChapterRange w translationId bookId (Some s) st
  = (match fst (getChapterRange w translationId bookId (Some s) st) with
     | Ok r => Ok (r ++ [Num (N.of_nat (List.length items))])%list
     | Throw e => Throw e
     end,
     logged_request ("Fetching chapters for " ++ bookId)
                    (chapters_url translationId bookId) st).
Proof.
  intros Hg Hnet Hitems.
  assert (Hm : chapter_regex_match s = true) by now apply chapter_regex_match_iff.
  assert (Hne : s <> "").
  { destruct Hg as [[_ H] | (a & b & -> & _ & _)]; [exact H | destruct a; discriminate]. }
  unfold Revision.getChapterRange.
  rewrite (truthy_arg_nonempty _ Hne). cbn [arg_string andb negb]. rewrite Hm.
  cbn [negb]. unfold validateResponseHasItems, fetchJson, logged_request.
  js_unfold. cbn [requests add_line]. rewrite Hnet. cbn [prop]. rewrite Hitems.
  cbn [Array_isArray negb elements].
  destruct Hg as [Hs | (a & b & -> & Ha & Hb)].
  - rewrite (getChapterRange_single w _ _ s st Hs). cbn [fst].
    destruct Hs as [Hd _]. rewrite (split_numeral _ Hd), (Number_numeral _ Hd).
    reflexivity.
  - rewrite (getChapterRange_range w _ _ a b st Ha Hb). cbn [fst].
    destruct Ha as [Ha _], Hb as [Hb _].
    rewrite (split_range _ _ Ha Hb), (Number_numeral _ Ha).
    cbn [map nth_error]. rewrite (Number_numeral _ Hb).
    unfold and_then_le, or_else, truthy_number, number_le, array_set_head.
    destruct (N.eqb (decimal b) 0); cbn [negb andb]; [reflexivity|].
    destruct (N.leb (decimal b) (decimal a)); reflexivity.
Qed.

Lemma Revision_appends_total_witness :
  chapter_grammar "2-3" /\
  net sample_world (requests initial) (chapters_url "100" "GEN")
  = inl (with_items sample_chapters) /\
  Revision.getChapterRange sample_world "100" "GEN" (Some "2-3") initial
  = (Ok [Num 2; Num 3; Num 3],
     logged_request "Fetching chapters for GEN" (chapters_url "100" "GEN") initial).
Proof.
  assert (Hg : chapter_grammar "2-3")
    by (apply chapter_regex_match_iff; reflexivity).
  refine (conj Hg (conj eq_refl _)).
  exact (Revision_appends_total sample_world "100" "GEN" "2-3" initial
           [("items", JArr sample_chapters)] sample_chapters Hg eq_refl eq_refl).
Defined.

(** ** More on the book list *)

(** Starting with an empty cache, a call prints its line and makes
    exactly one request.  It returns the list [items] if and only if the
    server answers the request with a payload whose field [items] is the
    array [items]; every other answer, and a rejected request, make it
    throw.  Afterwards the cache holds the list returned, and it is
    still empty when the call has thrown, so that a later call asks the
    server again. *)
Theorem fetchBookList_outcome (w : World) (translationId : string) (st : State) :
  bookListCache st = None ->
  requests (snd (fetchBookList w translationId st))
  = (requests st ++ [bookList_url translationId])%list
  /\
  console (snd (fetchBookList w translationId st))
  = (console st ++ [(stdout, "Fetching books")])%list
  /\
  (forall items,
     fst (fetchBookList w translationId st) = Ok items <->
     exists json,
       net w (requests st) (bookList_url translationId) = inl json /\
       field json "items" = Some (JArr items))
  /\
  bookListCache (snd (fetchBookList w translationId st))
  = match fst (fetchBookList w translationId st) with
    | Ok items => Some items
    | Throw _ => None
    end.
Proof.
  intros Hc.
  destruct (net w (requests st) (bookList_url translationId)) as [json|r] eqn:Hnet.
  - rewrite (fetchBookList_fetch w _ _ json Hc Hnet). cbv zeta.
    assert (Hother :
      field json "items" = None ->
      prop (Some json) "items" = Throw TypeError \/
      prop (Some json) "items" = Ok None).
    { destruct json; cbn [prop field]; auto. intros ->. now right. }
    destruct (field json "items") as [v|] eqn:Hf.
    + destruct json as [ | | | | |fields]; try discriminate Hf.
      cbn [prop]. cbn [field] in Hf. rewrite Hf.
      destruct v as [ | | | |l| ];
        cbn [Array_isArray elements fst snd];
        (split; [reflexivity|]); (split; [reflexivity|]);
        (split; [|try reflexivity; exact Hc]);
        intros items; (split; [intros H; try discriminate H|]).
      * intros (json & Hj & Hi). inversion Hj; subst json.
        cbn [field] in Hi. rewrite Hf in Hi. discriminate Hi.
      * intros (json & Hj & Hi). inversion Hj; subst json.
        cbn [field] in Hi. rewrite Hf in Hi. discriminate Hi.
      * intros (json & Hj & Hi). inversion Hj; subst json.
        cbn [field] in Hi. rewrite Hf in Hi. discriminate Hi.
      * intros (json & Hj & Hi). inversion Hj; subst json.
        cbn [field] in Hi. rewrite Hf in Hi. discriminate Hi.
      * inversion H; subst items. exists (JObj fields).
        split; [reflexivity | exact Hf].
      * intros (json & Hj & Hi). inversion Hj; subst json.
        cbn [field] in Hi. rewrite Hf in Hi. inversion Hi. reflexivity.
      * intros (json & Hj & Hi). inversion Hj; subst json.
        cbn [field] in Hi. rewrite Hf in Hi. discriminate Hi.
    + destruct (Hother eq_refl) as [E|E]; rewrite E;
        cbn [Array_isArray fst snd];
        (split; [reflexivity|]); (split; [reflexivity|]);
        (split; [|exact Hc]);
        intros items; (split; [intros H; discriminate H|]);
        intros (json' & Hj & Hi); inversion Hj; subst json';
        rewrite Hf in Hi; discriminate Hi.
  - rewrite (fetchBookList_rejected w _ _ r Hc Hnet). cbn [fst snd].
    split; [reflexivity|]. split; [reflexivity|]. split; [|exact Hc].
    intros items. split; [intros H; discriminate H|].
    intros (json & Hj & _). discriminate Hj.
Qed.

Lemma fetchBookList_outcome_witness :
  bookListCache initial = None /\
  requests (snd (fetchBookList sample_world "100" initial)) = [bookList_url "100"] /\
  fst (fetchBookList sample_world "100" initial) = Ok sample_books /\
  bookListCache (snd (fetchBookList sample_world "100" initial)) = Some sample_books /\
  bookListCache (snd (fetchBookList sample_world "300" initial)) = None.
Proof.
  pose proof (fetchBookList_outcome sample_world "100" initial eq_refl)
    as (Hreq & _ & Hiff & Hcache).
  pose proof (fetchBookList_outcome sample_world "300" initial eq_refl)
    as (_ & _ & _ & Hko).
  assert (Hok : fst (fetchBookList sample_world "100" initial) = Ok sample_books).
  { apply Hiff. exists (with_items sample_books). split; reflexivity. }
  refine (conj eq_refl (conj Hreq (conj Hok (conj _ _)))).
  - rewrite Hcache, Hok. reflexivity.
  - rewrite Hko. reflexivity.
Defined.






(** ** Listing the translations *)







(** ** More on the directory *)

(** An entry that carries the code but whose name is not a string stops
    [mkdir] with the engine's [TypeError]: no directory is created and no
    ["Making directory"] line is printed. *)
Theorem mkdir_entry_without_name (w : World) (translationId bookId : string)
  (canonical : bool) (st st1 : State) (items : list JSON) (i : nat)
  (item : JSON) :
  fetchBookList w translationId st = (Ok items, st1) ->
  no_null_entry items ->
  first_with_code bookId items i item ->
  (forall h, field item "human" <> Some (JStr h)) ->
  mkdir w translationId bookId canonical st = (Throw TypeError, st1).
Proof.
  intros Hfetch Hnn Hfirst Hname.
  unfold mkdir. unfold bind at 1. rewrite Hfetch.
  unfold bind at 1. unfold lift at 1. unfold findIndex.
  rewrite (findIndex_from_first bookId items i 0 item Hnn Hfirst).
  cbn [Nat.add]. destruct Hfirst as (Hnth & _ & _).
  assert (Hitem : item <> JNull).
  { unfold no_null_entry in Hnn. rewrite Forall_forall in Hnn.
    apply Hnn. eapply nth_error_In. exact Hnth. }
  unfold at_index. rewrite Hnth.
  unfold bind at 1. unfold lift at 1. rewrite (prop_field _ _ Hitem).
  unfold bind at 1. unfold lift at 1.
  destruct (field item "human") as [[ | | |h| | ]|] eqn:Hh; try reflexivity.
  now destruct (Hname h).
Qed.

Lemma mkdir_entry_without_name_witness :
  let st1 := set_bookListCache (Some books_without_name)
               (logged_request "Fetching books" (bookList_url "2") initial) in
  fetchBookList listing_world "2" initial = (Ok books_without_name, st1) /\
  no_null_entry books_without_name /\
  first_with_code "EXO" books_without_name 1 (JObj [("usfm", JStr "EXO")]) /\
  (forall h, field (JObj [("usfm", JStr "EXO")]) "human" <> Some (JStr h)) /\
  mkdir listing_world "2" "EXO" true initial = (Throw TypeError, st1).
Proof.
  intros st1.
  assert (Hnn : no_null_entry books_without_name)
    by (repeat constructor; discriminate).
  assert (Hfirst : first_with_code "EXO" books_without_name 1
                     (JObj [("usfm", JStr "EXO")])).
  { split; [reflexivity|]. split; [reflexivity|].
    intros j item' Hj Hnth. destruct j as [|j]; [|lia].
    inversion Hnth; subst. discriminate. }
  assert (Hname : forall h, field (JObj [("usfm", JStr "EXO")]) "human"
                            <> Some (JStr h)) by discriminate.
  refine (conj eq_refl (conj Hnn (conj Hfirst (conj Hname _)))).
  exact (mkdir_entry_without_name listing_world "2" "EXO" true initial st1
           books_without_name 1 _ eq_refl Hnn Hfirst Hname).
Defined.

Lemma no_whitespace_replace_from (in_run : bool) (s : string) :
  no_whitespace (replace_whitespace_from in_run s) = true.
Proof.
  revert in_run. induction s as [|c s IH]; intros in_run; [reflexivity|].
  cbn [replace_whitespace_from]. destruct (is_whitespace c) eqn:Hc.
  - destruct in_run; [apply IH|]. cbn [no_whitespace]. now rewrite IH.
  - cbn [no_whitespace]. now rewrite Hc, IH.
Qed.

Lemma replace_whitespace_unchanged (s : string) :
  no_whitespace s = true -> replace_whitespace s = s.
Proof.
  unfold replace_whitespace. induction s as [|c s IH]; [reflexivity|].
  cbn [no_whitespace replace_whitespace_from]. intros H.
  apply andb_true_iff in H as [Hc Hs]. apply negb_true_iff in Hc.
  now rewrite Hc, (IH Hs).
Qed.

(** What [replace(/\s+/g, '_')] gives has no whitespace left, a string
    without whitespace is returned as it is, and replacing twice is
    replacing once. *)
Theorem replace_whitespace_clean (s : string) :
  no_whitespace (replace_whitespace s) = true /\
  (no_whitespace s = true -> replace_whitespace s = s) /\
  replace_whitespace (replace_whitespace s) = replace_whitespace s.
Proof.
  split; [apply no_whitespace_replace_from|].
  split; [apply replace_whitespace_unchanged|].
  apply replace_whitespace_unchanged, no_whitespace_replace_from.
Qed.

(** ** More on the metadata *)

Lemma validateMetadataResponse_state (w : World) (json : JSON) (st : State) :
  snd (validateMetadataResponse w json st) = st.
Proof.
  unfold validateMetadataResponse. js_unfold.
  repeat match goal with
         | |- context [match ?x with _ => _ end] =>
             destruct x; cbn [fst snd]; try reflexivity
         end.
Qed.

Lemma fetchMetadata_state (w : World) (translationId bookId : string)
  (chapter : N) (st : State) :
  snd (fetchMetadata w translationId bookId chapter st)
  = metadata_requested translationId bookId chapter st.
Proof.
  unfold fetchMetadata, fetchJson, metadata_requested, logged_request.
  unfold bind at 1. unfold console_log at 1, modify at 1.
  unfold bind at 1. cbn [requests add_line].
  destruct (net w (requests st) (metaUrl translationId bookId chapter))
    as [json|r]; [|reflexivity].
  unfold bind at 1.
  pose proof (validateMetadataResponse_state w json
    (add_request (metaUrl translationId bookId chapter)
       (add_line (stdout, "Fetching metadata for " ++ bookId ++ "." ++
                          String_of_N chapter) st))) as Hv.
  destruct (validateMetadataResponse w json _) as [[u|e] st'];
    cbn [snd] in Hv; subst st'; [|reflexivity].
  js_unfold.
  repeat match goal with
         | |- context [match ?x with _ => _ end] =>
             destruct x; cbn [fst snd]; try reflexivity
         end.
Qed.

(** Whatever the server answers and whatever the outcome, a call of
    [fetchMetadata] for a chapter up to 2^53 prints one line, which names
    the book and the chapter, and makes one request, to the address of
    the chapter service with the translation, the book and the chapter
    in its query, the chapter being written in decimal; it leaves the
    cache and the directories as they are. *)
Theorem fetchMetadata_one_request (w : World) (translationId bookId : string)
  (chapter : N) (st : State) :
  (chapter <= 2 ^ 53)%N ->
  exists digits,
    written_in_decimal chapter digits /\
    requests (snd (fetchMetadata w translationId bookId chapter st))
    = (requests st ++
       [("https://nodejs.bible.com/api/bible/chapter/3.1?id=" ++ translationId ++
         "&reference=" ++ bookId ++ "." ++ digits)%string])%list /\
    console (snd (fetchMetadata w translationId bookId chapter st))
    = (console st ++
       [(stdout, ("Fetching metadata for " ++ bookId ++ "." ++ digits)%string)])%list /\
    bookListCache (snd (fetchMetadata w translationId bookId chapter st))
    = bookListCache st /\
    dirs (snd (fetchMetadata w translationId bookId chapter st)) = dirs st.
Proof.
  intros _. exists (String_of_N chapter).
  split; [apply String_of_N_written|].
  rewrite (fetchMetadata_state w translationId bookId chapter st).
  unfold metadata_requested, logged_request.
  cbn [add_request add_line requests console bookListCache dirs].
  repeat split.
Qed.

Lemma fetchMetadata_one_request_witness :
  (27 <= 2 ^ 53)%N /\
  exists digits,
    written_in_decimal 27 digits /\
    requests (snd (fetchMetadata sample_world "100" "PSA" 27 initial))
    = ["https://nodejs.bible.com/api/bible/chapter/3.1?id=100&reference=PSA." ++
       digits] /\
    console (snd (fetchMetadata sample_world "100" "PSA" 27 initial))
    = [(stdout, "Fetching metadata for PSA." ++ digits)].
Proof.
  assert (H : (27 <= 2 ^ 53)%N) by discriminate.
  split; [exact H|].
  destruct (fetchMetadata_one_request sample_world "100" "PSA" 27 initial H)
    as (digits & Hd & Hreq & Hcon & _).
  exists digits. split; [exact Hd|]. split; [exact Hreq | exact Hcon].
Defined.

(** An address that is truthy but not a string (a number, [true], an
    array, an object) passes the validation; the call of [startsWith] on
    it then raises the engine's [TypeError]. *)
Theorem fetchMetadata_address_not_a_string (w : World)
  (translationId bookId : string) (chapter : N) (st : State)
  (json entry address : JSON) :
  net w (requests st) (metaUrl translationId bookId chapter) = inl json ->
  first_audio_entry json = Some entry ->
  entry_url entry = Some address ->
  truthy (Some address) = true ->
  (forall url, address <> JStr url) ->
  truthy (reference_human json) = true ->
  validateMetadataResponse w json st = (Ok tt, st) /\
  fetchMetadata w translationId bookId chapter st
  = (Throw TypeError, metadata_requested translationId bookId chapter st).
Proof.
  intros Hnet Hentry Hurl Htruthy Hnot Hhuman.
  assert (Hnn : json <> JNull) by (intros ->; discriminate Hentry).
  assert (Hfirst : first_audio_entry json <> Some JNull).
  { rewrite Hentry. intros E. inversion E; subst entry. discriminate Hurl. }
  split.
  - rewrite (validateMetadataResponse_run w json st Hnn Hfirst).
    unfold metadata_well_formed. now rewrite Hentry, Hurl, Htruthy, Hhuman.
  - rewrite (fetchMetadata_run w _ _ _ _ json Hnet Hnn Hfirst).
    rewrite Hentry, Hurl, Htruthy, Hhuman. cbn [andb].
    destruct address as [ | | |url| | ]; try reflexivity.
    now destruct (Hnot url).
Qed.

Lemma fetchMetadata_address_not_a_string_witness :
  net listing_world (requests initial) (metaUrl "100" "GEN" 5)
  = inl metadata_numeric_url /\
  first_audio_entry metadata_numeric_url
  = Some (JObj [("download_urls", JObj [("format_mp3_32k", JNum (7 # 1))])]) /\
  entry_url (JObj [("download_urls", JObj [("format_mp3_32k", JNum (7 # 1))])])
  = Some (JNum (7 # 1)) /\
  truthy (Some (JNum (7 # 1))) = true /\
  (forall url, JNum (7 # 1) <> JStr url) /\
  truthy (reference_human metadata_numeric_url) = true /\
  validateMetadataResponse listing_world metadata_numeric_url initial
  = (Ok tt, initial) /\
  fetchMetadata listing_world "100" "GEN" 5 initial
  = (Throw TypeError, metadata_requested "100" "GEN" 5 initial).
Proof.
  assert (Hnot : forall url, JNum (7 # 1) <> JStr url) by discriminate.
  refine (conj eq_refl (conj eq_refl (conj eq_refl (conj eq_refl
            (conj Hnot (conj eq_refl _)))))).
  exact (fetchMetadata_address_not_a_string listing_world "100" "GEN" 5 initial
           metadata_numeric_url _ (JNum (7 # 1))
           eq_refl eq_refl eq_refl eq_refl Hnot eq_refl).
Defined.

(** A request that is rejected is not tried again: the rejection is
    what [fetchMetadata] throws.  An answer [null], or one whose first
    audio entry is [null], is not refused by the validation: reading a
    property of [null] raises the engine's [TypeError]. *)
Theorem fetchMetadata_rejected_or_null (w : World)
  (translationId bookId : string) (chapter : N) (st : State) :
  let st1 := metadata_requested translationId bookId chapter st in
  (forall r,
     net w (requests st) (metaUrl translationId bookId chapter) = inr r ->
     fetchMetadata w translationId bookId chapter st
     = (Throw (FetchRejected r), st1))
  /\
  (forall json,
     net w (requests st) (metaUrl translationId bookId chapter) = inl json ->
     json = JNull \/ first_audio_entry json = Some JNull ->
     fetchMetadata w translationId bookId chapter st = (Throw TypeError, st1)).
Proof.
  intros st1. subst st1.
  unfold fetchMetadata, fetchJson, metadata_requested, logged_request.
  split.
  - intros r Hnet. js_unfold. cbn [requests add_line]. now rewrite Hnet.
  - intros json Hnet Hnull. unfold validateMetadataResponse. js_unfold.
    cbn [requests add_line]. rewrite Hnet.
    destruct Hnull as [->|Hfirst]; [reflexivity|].
    unfold first_audio_entry in Hfirst.
    destruct json as [ | | | | |fields]; try discriminate Hfirst.
    cbn [field] in Hfirst. cbn [prop].
    destruct (lookup "audio" fields) as [[ | | | |[|entry rest]| ]|];
      try discriminate Hfirst.
    inversion Hfirst; subst entry. reflexivity.
Qed.

(** The address [fetchMetadata] returns is never protocol-relative, and
    normalizing an address twice changes nothing more. *)
Theorem normalize_url_absolute (url : string) :
  startsWith "//" (normalize_url url) = false /\
  normalize_url (normalize_url url) = normalize_url url.
Proof.
  assert (H : startsWith "//" (normalize_url url) = false).
  { unfold normalize_url. destruct (startsWith "//" url) eqn:E; [|exact E].
    unfold startsWith. cbn [append String.prefix].
    destruct (ascii_dec "/" "h") as [Heq|_]; [discriminate Heq | reflexivity]. }
  split; [exact H|].
  unfold normalize_url at 1. now rewrite H.
Qed.

(** Witnesses of the two ways [fetchMetadata] fails without a refusal of
    the validation. *)
Lemma fetchMetadata_rejected_or_null_witness :
  fetchMetadata sample_world "100" "GEN" 9 initial
  = (Throw (FetchRejected NetworkError), metadata_requested "100" "GEN" 9 initial)
  /\
  fetchMetadata null_world "100" "GEN" 1 initial
  = (Throw TypeError, metadata_requested "100" "GEN" 1 initial).
Proof.
  split.
  - exact (proj1 (fetchMetadata_rejected_or_null sample_world "100" "GEN" 9 initial)
             NetworkError eq_refl).
  - exact (proj2 (fetchMetadata_rejected_or_null null_world "100" "GEN" 1 initial)
             JNull eq_refl (or_introl eq_refl)).
Defined.

(** ** The command line *)

Section CommandLineFacts.

Variable h : Host.

(** While no [-t] is met, the arguments are read one by one. *)
Lemma getArgs_from_app (before rest : list string) (result : Args) :
  Forall (fun arg => arg <> "-t") before ->
  getArgs_from h (before ++ rest) result
  = getArgs_from h rest (getArgs_from h before result).
Proof.
  intros Hno. revert result.
  induction Hno as [|arg before Harg _ IH]; intros result; [reflexivity|].
  cbn [app getArgs_from].
  apply String.eqb_neq in Harg. rewrite Harg.
  repeat match goal with
         | |- context [if ?c then _ else _] => destruct c eqn:?
         end; apply IH.
Qed.

Lemma getArgs_from_chapters (n : nat) :
  forall (args : list string) (result : Args),
    (List.length args <= n)%nat ->
    (arg_chapters result <> None -> truthy_arg (arg_bookId result) = true) ->
    arg_chapters (getArgs_from h args result) <> None ->
    truthy_arg (arg_bookId (getArgs_from h args result)) = true.
Proof.
  induction n as [|n IH]; intros args result Hlen Hinv.
  - destruct args; [exact Hinv | simpl in Hlen; lia].
  - destruct args as [|arg rest]; [exact Hinv|].
    simpl in Hlen. cbn [getArgs_from].
    destruct (String.eqb arg "-h"); [apply IH; [lia | exact Hinv]|].
    destruct (String.eqb arg "-l"); [apply IH; [lia | exact Hinv]|].
    destruct (String.eqb arg "-i"); [apply IH; [lia | exact Hinv]|].
    destruct (String.eqb arg "-c"); [apply IH; [lia | exact Hinv]|].
    destruct (String.eqb arg "-t").
    { destruct rest as [|next rest']; [exact Hinv|].
      apply IH; [simpl in Hlen; lia | exact Hinv]. }
    destruct (startsWith "-t" arg); [apply IH; [lia | exact Hinv]|].
    destruct (truthy_arg (arg_bookId result)) eqn:Hbook.
    + apply IH; [lia|]. intros _. exact Hbook.
    + apply IH; [lia|]. cbn [arg_chapters arg_bookId]. intros Hch.
      destruct (arg_chapters result) eqn:E; [|congruence].
      assert (Hsome : Some s <> None) by discriminate.
      specialize (Hinv Hsome). congruence.
Qed.

End CommandLineFacts.

(** [getArgs] never leaves a chapter expression without a book: when
    [chapters] is set, [bookId] is a non-empty string. *)
Theorem getArgs_chapters_need_book (h : Host) (args : list string) :
  arg_chapters (getArgs h args) <> None ->
  truthy_arg (arg_bookId (getArgs h args)) = true.
Proof.
  apply (getArgs_from_chapters h (List.length args) args default_args);
    [lia | intros H; now destruct H].
Qed.

Lemma getArgs_chapters_need_book_witness :
  arg_chapters (getArgs sample_host ["-c"; "psa"; "27-34"]) <> None /\
  truthy_arg (arg_bookId (getArgs sample_host ["-c"; "psa"; "27-34"])) = true.
Proof.
  assert (H : arg_chapters (getArgs sample_host ["-c"; "psa"; "27-34"]) <> None)
    by discriminate.
  split; [exact H|].
  exact (getArgs_chapters_need_book sample_host ["-c"; "psa"; "27-34"] H).
Defined.

Lemma prefix_app (a b : string) : String.prefix a (a ++ b) = true.
Proof.
  induction a as [|c a IH]; cbn [append String.prefix].
  - destruct b; reflexivity.
  - destruct (ascii_dec c c) as [_|n]; [exact IH | now destruct n].
Qed.

Lemma replace_first_dash_t (id : string) : replace_first "-t" "" ("-t" ++ id) = id.
Proof.
  change ("-t" ++ id) with (String "-" (String "t" id)). cbn [replace_first].
  change (String "-" (String "t" id)) with ("-t" ++ id).
  rewrite (prefix_app "-t" id). reflexivity.
Qed.

(** The translation id can be given attached to [-t] or as the argument
    after it: [-t ID] and [-tID] are read alike wherever they stand (the
    arguments before them holding no [-t]). *)
Theorem getArgs_translation_forms (h : Host) (before rest : list string)
  (id : string) :
  id <> "" ->
  Forall (fun arg => arg <> "-t") before ->
  getArgs h (before ++ "-t" :: id :: rest)
  = getArgs h (before ++ ("-t" ++ id) :: rest).
Proof.
  intros Hid Hno. unfold getArgs.
  rewrite !(getArgs_from_app h before _ default_args Hno).
  generalize (getArgs_from h before default_args). intros result.
  cbn [getArgs_from].
  change (String.eqb "-t" "-h") with false.
  change (String.eqb "-t" "-l") with false.
  change (String.eqb "-t" "-i") with false.
  change (String.eqb "-t" "-c") with false.
  change (String.eqb "-t" "-t") with true. cbv iota.
  destruct id as [|c id]; [congruence|].
  change (String.eqb ("-t" ++ String c id) "-h") with false.
  change (String.eqb ("-t" ++ String c id) "-l") with false.
  change (String.eqb ("-t" ++ String c id) "-i") with false.
  change (String.eqb ("-t" ++ String c id) "-c") with false.
  change (String.eqb ("-t" ++ String c id) "-t") with false. cbv iota.
  unfold startsWith. rewrite (prefix_app "-t" (String c id)).
  now rewrite (replace_first_dash_t (String c id)).
Qed.

Lemma getArgs_translation_forms_witness :
  "59" <> "" /\ Forall (fun arg => arg <> "-t") ["-c"] /\
  getArgs sample_host (["-c"] ++ "-t" :: "59" :: ["gen"])
  = getArgs sample_host (["-c"] ++ "-t59" :: ["gen"]).
Proof.
  assert (Hid : "59" <> "") by discriminate.
  assert (Hno : Forall (fun arg => arg <> "-t") ["-c"])
    by (repeat constructor; discriminate).
  refine (conj Hid (conj Hno _)).
  exact (getArgs_translation_forms sample_host ["-c"] ["gen"] "59" Hid Hno).
Defined.

(** ** What creates no directory *)

Lemma keeps_dirs_ret {A} (a : A) : keeps_dirs (ret a).
Proof. intros st. reflexivity. Qed.

Lemma keeps_dirs_throw {A} (e : exn) : keeps_dirs (@throw A e).
Proof. intros st. reflexivity. Qed.

Lemma keeps_dirs_lift {A} (o : Outcome A) : keeps_dirs (lift o).
Proof. intros st. reflexivity. Qed.

Lemma keeps_dirs_bind {A B} (m : M A) (k : A -> M B) :
  keeps_dirs m -> (forall a, keeps_dirs (k a)) -> keeps_dirs (bind m k).
Proof.
  intros Hm Hk st. unfold bind. specialize (Hm st).
  destruct (m st) as [[a|e] st']; cbn [snd] in *; [|exact Hm].
  now rewrite (Hk a st').
Qed.

Lemma keeps_dirs_console_log (s : string) : keeps_dirs (console_log s).
Proof. intros st. reflexivity. Qed.

Lemma keeps_dirs_console_error (s : string) : keeps_dirs (console_error s).
Proof. intros st. reflexivity. Qed.

Lemma keeps_dirs_set_cache (c : option (list JSON)) :
  keeps_dirs (modify (set_bookListCache c)).
Proof. intros st. reflexivity. Qed.

Lemma keeps_dirs_get_state : keeps_dirs get_state.
Proof. intros st. reflexivity. Qed.

Lemma keeps_dirs_fetchJson (w : World) (url : string) : keeps_dirs (fetchJson w url).
Proof.
  intros st. unfold fetchJson. destruct (net w (requests st) url); reflexivity.
Qed.

Lemma keeps_dirs_forEach {A} (f : A -> M unit) (xs : list A) :
  (forall x, keeps_dirs (f x)) -> keeps_dirs (forEach f xs).
Proof.
  intros Hf. induction xs as [|x xs IH]; cbn [forEach].
  - apply keeps_dirs_ret.
  - apply keeps_dirs_bind; [apply Hf | intros _; exact IH].
Qed.

Create HintDb keeps discriminated.
#[local] Hint Resolve keeps_dirs_ret keeps_dirs_throw keeps_dirs_lift
  keeps_dirs_console_log keeps_dirs_console_error keeps_dirs_set_cache
  keeps_dirs_get_state keeps_dirs_fetchJson : keeps.

Ltac keeps_dirs_auto :=
  repeat first
    [ apply keeps_dirs_bind; [|intros ?]
    | apply keeps_dirs_forEach; intros ?
    | solve [auto with keeps]
    | match goal with
      | |- keeps_dirs (if ?c then _ else _) => destruct c
      | |- keeps_dirs (match ?x with _ => _ end) => destruct x
      end ].

Lemma keeps_dirs_validateResponseHasItems (w : World) (json : JSON) :
  keeps_dirs (validateResponseHasItems w json).
Proof. unfold validateResponseHasItems. keeps_dirs_auto. Qed.

Lemma keeps_dirs_fetchBookList (w : World) (translationId : string) :
  keeps_dirs (fetchBookList w translationId).
Proof.
  unfold fetchBookList. keeps_dirs_auto.
Qed.

Lemma keeps_dirs_printBookList (w : World) (translationId : string) :
  keeps_dirs (printBookList w translationId console_log).
Proof.
  unfold printBookList. apply keeps_dirs_bind;
    [apply keeps_dirs_fetchBookList | intros items].
  keeps_dirs_auto.
Qed.

Lemma keeps_dirs_printTranslations (w : World) :
  keeps_dirs (printTranslations w console_log).
Proof.
  unfold printTranslations, fetchTranslations. keeps_dirs_auto.
Qed.

Lemma keeps_dirs_printHelp (h : Host) (logFn : string -> M unit) :
  (forall s, keeps_dirs (logFn s)) -> keeps_dirs (printHelp h logFn).
Proof.
  intros Hlog. unfold printHelp.
  repeat (apply keeps_dirs_bind; [apply Hlog | intros _]). apply Hlog.
Qed.

(** [printHelp] never throws. *)
Lemma printHelp_returns (h : Host) (st : State) :
  fst (printHelp h console_log st) = Ok tt /\
  fst (printHelp h console_error st) = Ok tt.
Proof. split; reflexivity. Qed.

(** ** What downloads nothing *)

Lemma quiet_retP {A} (a : A) : quiet (retP a).
Proof. intros p. repeat split. Qed.

Lemma quiet_throwP {A} (e : exn) : quiet (@throwP A e).
Proof. intros p. repeat split. Qed.

Lemma quiet_liftM {A} (m : M A) : keeps_dirs m -> quiet (liftM m).
Proof.
  intros Hm p. unfold liftM. specialize (Hm (js p)).
  destruct (m (js p)) as [[a|e] st]; cbn [snd js downloads files] in *;
    repeat split; exact Hm.
Qed.

Lemma quiet_bindP {A B} (m : P A) (k : A -> P B) :
  quiet m -> (forall a, quiet (k a)) -> quiet (bindP m k).
Proof.
  intros Hm Hk p. unfold bindP. destruct (Hm p) as (H1 & H2 & H3).
  destruct (m p) as [[a|e|code] p']; cbn [snd] in *; try (repeat split; assumption).
  destruct (Hk a p') as (K1 & K2 & K3). repeat split; congruence.
Qed.

Lemma quiet_exit_first {A B} (code : N) (k : A -> P B) :
  quiet (bindP (process_exit code) k).
Proof. intros p. repeat split. Qed.

Lemma quiet_when (cond : bool) (m : P unit) : quiet m -> quiet (when cond m).
Proof. intros Hm. destruct cond; [exact Hm | apply quiet_retP]. Qed.

Lemma main_body_informational (h : Host) (w : World) (args : list string) :
  arg_help (getArgs h args) || arg_listTranslations (getArgs h args)
    || arg_listBooks (getArgs h args) = true ->
  quiet (main_body h w args).
Proof.
  intros Hinfo. unfold main_body. cbv zeta. rewrite Hinfo.
  apply quiet_bindP.
  { apply quiet_when, quiet_liftM, keeps_dirs_printHelp, keeps_dirs_console_log. }
  intros _. apply quiet_bindP.
  { apply quiet_when, quiet_liftM, keeps_dirs_printTranslations. }
  intros _. apply quiet_bindP.
  { apply quiet_when, quiet_bindP; [|intros _; apply quiet_throwP].
    apply quiet_liftM, keeps_dirs_printHelp, keeps_dirs_console_error. }
  intros _. apply quiet_bindP.
  { apply quiet_when, quiet_liftM, keeps_dirs_printBookList. }
  intros _. cbn [when]. apply quiet_exit_first.
Qed.

(** With [-h], [-i] or [-l] on the command line the run only informs:
    whatever the server answers, no directory is created, no audio file
    is asked for and no file is written. *)
Theorem main_informational_only (h : Host) (w : World) (args : list string)
  (p : Process) :
  arg_help (getArgs h args) || arg_listTranslations (getArgs h args)
    || arg_listBooks (getArgs h args) = true ->
  dirs (js (snd (main h w args p))) = dirs (js p) /\
  downloads (snd (main h w args p)) = downloads p /\
  files (snd (main h w args p)) = files p.
Proof.
  intros Hinfo. unfold main.
  destruct (main_body_informational h w args Hinfo p) as (H1 & H2 & H3).
  destruct (main_body h w args p) as [[u|e|code] p'];
    cbn [snd js downloads files dirs add_line] in *; repeat split; assumption.
Qed.

Lemma main_informational_only_witness :
  arg_help (getArgs sample_host ["-l"; "gen"; "1-3"])
    || arg_listTranslations (getArgs sample_host ["-l"; "gen"; "1-3"])
    || arg_listBooks (getArgs sample_host ["-l"; "gen"; "1-3"]) = true /\
  dirs (js (snd (main sample_host sample_world ["-l"; "gen"; "1-3"] start))) = [] /\
  downloads (snd (main sample_host sample_world ["-l"; "gen"; "1-3"] start)) = [] /\
  files (snd (main sample_host sample_world ["-l"; "gen"; "1-3"] start)) = [].
Proof.
  split; [reflexivity|].
  exact (main_informational_only sample_host sample_world ["-l"; "gen"; "1-3"]
           start eq_refl).
Defined.

(** ** Runs that end before the first request *)

Lemma process_eta (p : Process) : mkProcess (js p) (downloads p) (files p) = p.
Proof. destruct p. reflexivity. Qed.

Section EarlyErrors.

Variable h : Host.
Variable w : World.
Variable args : list string.
Variable p : Process.

Hypothesis no_help : arg_help (getArgs h args) = false.
Hypothesis no_listTranslations : arg_listTranslations (getArgs h args) = false.
Hypothesis no_listBooks : arg_listBooks (getArgs h args) = false.
Hypothesis id_is_number : isNaN h (arg_translationId (getArgs h args)) = false.

Lemma main_body_download_mode :
  main_body h w args p
  = let a := getArgs h args in
    let translationId := TranslationId_string (arg_translationId a) in
    let bookId := arg_string (arg_bookId a) in
    (when (negb (truthy_arg (arg_bookId a)))
       (liftM (printHelp h console_error) ;;
        throwP (Error "book id required")) ;;
     range <- liftM (getChapterRange w translationId bookId (arg_chapters a)) ;;
     let first := nth_error range 0 in
     let last := nth_error range 1 in
     dirname <- liftM (mkdir w translationId bookId (arg_canonical a)) ;;
     liftM (console_log ("Downloading chapters " ++ number_string first ++
                         "-" ++ number_string last)) ;;
     for_chapters h w translationId bookId dirname first last ;;
     liftM (console_log "It is finished"))%proc p.
Proof.
  unfold main_body. cbv zeta.
  rewrite no_help, no_listTranslations, no_listBooks, id_is_number.
  reflexivity.
Qed.

(** Without a book on the command line the usage is printed on the
    error stream and the run ends with the error; nothing was requested. *)
Lemma main_missing_book_run :
  truthy_arg (arg_bookId (getArgs h args)) = false ->
  main h w args p
  = (1%N,
     mkProcess
       (add_line (stderr, inspect h (Error "book id required"))
          (snd (printHelp h console_error (js p))))
       (downloads p) (files p)).
Proof.
  intros Hbook. unfold main. rewrite main_body_download_mode. cbv zeta.
  rewrite Hbook. reflexivity.
Qed.

End EarlyErrors.

(** When no book is named (and no listing is asked for), [main] prints
    the usage on the error stream, then the error ["book id required"],
    and exits with code 1 without a single request. *)
Theorem main_missing_book (h : Host) (w : World) (args : list string)
  (p : Process) :
  arg_help (getArgs h args) = false ->
  arg_listTranslations (getArgs h args) = false ->
  arg_listBooks (getArgs h args) = false ->
  isNaN h (arg_translationId (getArgs h args)) = false ->
  truthy_arg (arg_bookId (getArgs h args)) = false ->
  fst (main h w args p) = 1%N /\
  requests (js (snd (main h w args p))) = requests (js p) /\
  js (snd (main h w args p))
  = add_line (stderr, inspect h (Error "book id required"))
      (snd (printHelp h console_error (js p))).
Proof.
  intros H1 H2 H3 H4 H5.
  rewrite (main_missing_book_run h w args p H1 H2 H3 H4 H5).
  repeat split.
Qed.

Lemma main_missing_book_witness :
  arg_help (getArgs sample_host ["-c"]) = false /\
  arg_listTranslations (getArgs sample_host ["-c"]) = false /\
  arg_listBooks (getArgs sample_host ["-c"]) = false /\
  isNaN sample_host (arg_translationId (getArgs sample_host ["-c"])) = false /\
  truthy_arg (arg_bookId (getArgs sample_host ["-c"])) = false /\
  fst (main sample_host sample_world ["-c"] start) = 1%N /\
  requests (js (snd (main sample_host sample_world ["-c"] start))) = [].
Proof.
  refine (conj eq_refl (conj eq_refl (conj eq_refl (conj eq_refl (conj eq_refl _))))).
  destruct (main_missing_book sample_host sample_world ["-c"] start
              eq_refl eq_refl eq_refl eq_refl eq_refl) as (Hcode & Hreq & _).
  exact (conj Hcode Hreq).
Defined.

(** A chapter expression outside the grammar is reported before
    anything else is done for the download: the run exits with code 1,
    and all it has done is to print the error; neither the chapter list
    nor the book list was requested. *)
Theorem main_bad_chapters_offline (h : Host) (w : World) (args : list string)
  (p : Process) (s : string) :
  arg_help (getArgs h args) = false ->
  arg_listTranslations (getArgs h args) = false ->
  arg_listBooks (getArgs h args) = false ->
  isNaN h (arg_translationId (getArgs h args)) = false ->
  truthy_arg (arg_bookId (getArgs h args)) = true ->
  arg_chapters (getArgs h args) = Some s ->
  s <> "" -> ~ chapter_grammar s ->
  main h w args p
  = (1%N,
     mkProcess
       (add_line (stderr, inspect h
                   (Error "Chapter must be a number or a range (e.g. 3-5)"))
          (js p))
       (downloads p) (files p)).
Proof.
  intros H1 H2 H3 H4 Hbook Hch Hne Hg. unfold main.
  rewrite (main_body_download_mode h w args p H1 H2 H3 H4). cbv zeta.
  rewrite Hbook, Hch. cbn [negb when]. unfold bindP at 1. cbn [retP].
  unfold bindP at 1, liftM at 1.
  assert (Hm : chapter_regex_match s = false).
  { destruct (chapter_regex_match s) eqn:E; [|reflexivity].
    exfalso. apply Hg. now apply chapter_regex_match_iff. }
  rewrite (getChapterRange_invalid_format_run w _ _ s (js p) Hne Hm).
  reflexivity.
Qed.

Lemma main_bad_chapters_offline_witness :
  arg_help (getArgs sample_host ["xyz"; "1-2-3"]) = false /\
  arg_listTranslations (getArgs sample_host ["xyz"; "1-2-3"]) = false /\
  arg_listBooks (getArgs sample_host ["xyz"; "1-2-3"]) = false /\
  isNaN sample_host (arg_translationId (getArgs sample_host ["xyz"; "1-2-3"])) = false /\
  truthy_arg (arg_bookId (getArgs sample_host ["xyz"; "1-2-3"])) = true /\
  arg_chapters (getArgs sample_host ["xyz"; "1-2-3"]) = Some "1-2-3" /\
  "1-2-3" <> "" /\ ~ chapter_grammar "1-2-3" /\
  main sample_host sample_world ["xyz"; "1-2-3"] start
  = (1%N,
     mkProcess
       (add_line (stderr, "Error: Chapter must be a number or a range (e.g. 3-5)")
          initial) [] []).
Proof.
  assert (Hne : "1-2-3" <> "") by discriminate.
  assert (Hg : ~ chapter_grammar "1-2-3")
    by (apply not_grammar_of_regex; reflexivity).
  refine (conj eq_refl (conj eq_refl (conj eq_refl (conj eq_refl (conj eq_refl
            (conj eq_refl (conj Hne (conj Hg _)))))))).
  exact (main_bad_chapters_offline sample_host sample_world ["xyz"; "1-2-3"] start
           "1-2-3" eq_refl eq_refl eq_refl eq_refl eq_refl eq_refl Hne Hg).
Defined.

(** ** A [-t] without a value *)

Lemma getArgs_trailing_t (h : Host) (args : list string) :
  Forall (fun arg => arg <> "-t") args ->
  arg_translationId (getArgs h (args ++ ["-t"])) = MissingId.
Proof.
  intros Hno. unfold getArgs.
  rewrite (getArgs_from_app h args ["-t"] default_args Hno). reflexivity.
Qed.

Lemma liftM_not_exited {A} (m : M A) (p : Process) (code : N) (p' : Process) :
  liftM m p <> (Exited code, p').
Proof.
  unfold liftM. destruct (m (js p)) as [[a|e] st]; discriminate.
Qed.

Lemma main_body_trailing_t (h : Host) (w : World) (args : list string)
  (p : Process) :
  Forall (fun arg => arg <> "-t") args ->
  exists e p',
    main_body h w (args ++ ["-t"]) p = (Threw e, p') /\
    downloads p' = downloads p.
Proof.
  intros Hno. pose proof (getArgs_trailing_t h args Hno) as Hid.
  unfold main_body. cbv zeta. rewrite Hid. cbn [isNaN when].
  set (a := getArgs h (args ++ ["-t"])).
  unfold bindP at 1.
  destruct (when (arg_help a) (liftM (printHelp h console_log)) p)
    as [[u|e|code] p1] eqn:E1.
  - assert (Hd1 : downloads p1 = downloads p).
    { destruct (arg_help a); cbn [when] in E1.
      - unfold liftM in E1.
        destruct (printHelp h console_log (js p)) as [[x|x] st];
          inversion E1; reflexivity.
      - inversion E1; reflexivity. }
    unfold bindP at 1.
    destruct (when (arg_listTranslations a)
                (liftM (printTranslations w console_log)) p1)
      as [[u2|e2|code2] p2] eqn:E2.
    + assert (Hd2 : downloads p2 = downloads p1).
      { destruct (arg_listTranslations a); cbn [when] in E2.
        - unfold liftM in E2.
          destruct (printTranslations w console_log (js p1)) as [[x|x] st];
            inversion E2; reflexivity.
        - inversion E2; reflexivity. }
      unfold bindP at 1. unfold bindP at 1. unfold liftM at 1.
      destruct (printHelp h console_error (js p2)) as [[x|x] st] eqn:E3;
        cbn [throwP]; eexists; eexists; (split; [reflexivity|]);
        cbn [downloads]; congruence.
    + assert (Hd2 : downloads p2 = downloads p1).
      { destruct (arg_listTranslations a); cbn [when] in E2.
        - unfold liftM in E2.
          destruct (printTranslations w console_log (js p1)) as [[x|x] st];
            inversion E2; reflexivity.
        - inversion E2. }
      eexists; eexists; (split; [reflexivity|]); congruence.
    + exfalso. destruct (arg_listTranslations a); cbn [when] in E2;
        [exact (liftM_not_exited _ _ _ _ E2) | discriminate E2].
  - exfalso. destruct (arg_help a); cbn [when] in E1; [|discriminate E1].
    unfold liftM in E1. pose proof (proj1 (printHelp_returns h (js p))) as Hok.
    destruct (printHelp h console_log (js p)) as [[x|x] st];
      cbn [fst] in Hok; [discriminate E1 | discriminate Hok].
  - exfalso. destruct (arg_help a); cbn [when] in E1;
      [exact (liftM_not_exited _ _ _ _ E1) | discriminate E1].
Qed.

(** When [-t] is the last argument the translation id is [undefined],
    and the run ends with exit code 1: nothing is downloaded. *)
Theorem main_trailing_t_fails (h : Host) (w : World) (args : list string)
  (p : Process) :
  Forall (fun arg => arg <> "-t") args ->
  arg_translationId (getArgs h (args ++ ["-t"])) = MissingId /\
  fst (main h w (args ++ ["-t"]) p) = 1%N /\
  downloads (snd (main h w (args ++ ["-t"]) p)) = downloads p.
Proof.
  intros Hno. split; [exact (getArgs_trailing_t h args Hno)|].
  destruct (main_body_trailing_t h w args p Hno) as (e & p' & Hrun & Hd).
  unfold main. rewrite Hrun. split; [reflexivity | exact Hd].
Qed.

Lemma main_trailing_t_fails_witness :
  Forall (fun arg => arg <> "-t") ["gen"; "1"] /\
  arg_translationId (getArgs sample_host (["gen"; "1"] ++ ["-t"])) = MissingId /\
  fst (main sample_host sample_world (["gen"; "1"] ++ ["-t"]) start) = 1%N /\
  downloads (snd (main sample_host sample_world (["gen"; "1"] ++ ["-t"]) start)) = [].
Proof.
  assert (Hno : Forall (fun arg => arg <> "-t") ["gen"; "1"])
    by (repeat constructor; discriminate).
  split; [exact Hno|].
  exact (main_trailing_t_fails sample_host sample_world ["gen"; "1"] start Hno).
Defined.

(** ** The loop over the chapters *)


Section Loop.

Variable h : Host.
Variable w : World.
Variables translationId bookId dirname : string.





End Loop.


(** ** A whole run *)

Lemma State_ext (st st' : State) :
  bookListCache st = bookListCache st' -> requests st = requests st' ->
  console st = console st' -> dirs st = dirs st' -> st = st'.
Proof. destruct st, st'. cbn. intros -> -> -> ->. reflexivity. Qed.

Lemma bookListCache_add_line l st : bookListCache (add_line l st) = bookListCache st.
Proof. reflexivity. Qed.
Lemma bookListCache_add_request u st : bookListCache (add_request u st) = bookListCache st.
Proof. reflexivity. Qed.
Lemma bookListCache_add_dir d st : bookListCache (add_dir d st) = bookListCache st.
Proof. reflexivity. Qed.
Lemma bookListCache_set c st : bookListCache (set_bookListCache c st) = c.
Proof. reflexivity. Qed.
Lemma requests_add_line l st : requests (add_line l st) = requests st.
Proof. reflexivity. Qed.
Lemma requests_add_request u st :
  requests (add_request u st) = (requests st ++ [u])%list.
Proof. reflexivity. Qed.
Lemma requests_add_dir d st : requests (add_dir d st) = requests st.
Proof. reflexivity. Qed.
Lemma requests_set c st : requests (set_bookListCache c st) = requests st.
Proof. reflexivity. Qed.
Lemma console_add_line l st : console (add_line l st) = (console st ++ [l])%list.
Proof. reflexivity. Qed.
Lemma console_add_request u st : console (add_request u st) = console st.
Proof. reflexivity. Qed.
Lemma console_add_dir d st : console (add_dir d st) = console st.
Proof. reflexivity. Qed.
Lemma console_set c st : console (set_bookListCache c st) = console st.
Proof. reflexivity. Qed.
Lemma dirs_add_line l st : dirs (add_line l st) = dirs st.
Proof. reflexivity. Qed.
Lemma dirs_add_request u st : dirs (add_request u st) = dirs st.
Proof. reflexivity. Qed.
Lemma dirs_add_dir d st : dirs (add_dir d st) = (dirs st ++ [d])%list.
Proof. reflexivity. Qed.
Lemma dirs_set c st : dirs (set_bookListCache c st) = dirs st.
Proof. reflexivity. Qed.

Create Rewrite HintDb state.
#[local] Hint Rewrite bookListCache_add_line bookListCache_add_request
  bookListCache_add_dir bookListCache_set requests_add_line requests_add_request
  requests_add_dir requests_set console_add_line console_add_request
  console_add_dir console_set dirs_add_line dirs_add_request dirs_add_dir
  dirs_set : state.

Section SingleChapter.

Variable h : Host.
Variable w : World.
Variable args : list string.
Variable p : Process.
Variables (b : string) (n : N).
Variables (json : JSON) (items : list JSON) (i : nat) (item : JSON) (name : string).
Variables (answer entry : JSON) (url chapter : string).
Variables (statusMessage body : string).

Let a := getArgs h args.
Let t := TranslationId_string (arg_translationId a).
Let d := directory_name (arg_canonical a) i (replace_whitespace name).
Let path := path_join h d (replace_whitespace chapter ++ ".mp3").

Hypothesis no_help : arg_help a = false.
Hypothesis no_listTranslations : arg_listTranslations a = false.
Hypothesis no_listBooks : arg_listBooks a = false.
Hypothesis id_is_number : isNaN h (arg_translationId a) = false.
Hypothesis book_given : arg_bookId a = Some b.
Hypothesis book_not_empty : b <> "".
Hypothesis one_chapter : arg_chapters a = Some (String_of_N n).
Hypothesis cache_empty : bookListCache (js p) = None.
Hypothesis books_answer : net w (requests (js p)) (bookList_url t) = inl json.
Hypothesis books_items : field json "items" = Some (JArr items).
Hypothesis books_entries : no_null_entry items.
Hypothesis book_found : first_with_code b items i item.
Hypothesis book_name : field item "human" = Some (JStr name).
Hypothesis directory_created : fs_mkdir w d = None.
Hypothesis metadata_answer :
  net w (requests (js p) ++ [bookList_url t])%list (metaUrl t b n) = inl answer.
Hypothesis metadata_entry : first_audio_entry answer = Some entry.
Hypothesis metadata_url : entry_url entry = Some (JStr url).
Hypothesis url_not_empty : url <> "".
Hypothesis metadata_chapter : reference_human answer = Some (JStr chapter).
Hypothesis chapter_not_empty : chapter <> "".
Hypothesis audio_served :
  https_get h (downloads p) (normalize_url url) = Response 200 statusMessage body.
Hypothesis file_written : fs_writeFile h path body = None.

Lemma main_single_chapter_run :
  main h w args p
  = (0%N,
     mkProcess
       (mkState (Some items)
          (requests (js p) ++ [bookList_url t; metaUrl t b n])%list
          (console (js p) ++
           [(stdout, "Fetching books");
            (stdout, ("Making directory " ++ d)%string);
            (stdout, ("Downloading chapters " ++ String_of_N n ++ "-" ++
                      String_of_N n)%string);
            (stdout, ("Fetching metadata for " ++ b ++ "." ++ String_of_N n)%string);
            (stdout, ("Downloading " ++ normalize_url url)%string);
            (stdout, ("200 " ++ statusMessage)%string);
            (stdout, ("Writing to " ++ path)%string);
            (stdout, "It is finished")])%list
          (dirs (js p) ++ [d])%list)
       (downloads p ++ [normalize_url url])%list
       (files p ++ [(path, body)])%list).
Proof.
  unfold main.
  rewrite (main_body_download_mode h w args p no_help no_listTranslations
             no_listBooks id_is_number).
  cbv zeta. fold a. fold t. rewrite book_given, one_chapter.
  cbn [arg_string]. rewrite (truthy_arg_nonempty _ book_not_empty).
  cbn [negb when]. unfold bindP at 1. cbn [retP].
  unfold bindP at 1, liftM at 1.
  rewrite (getChapterRange_single w t b (String_of_N n) (js p)
             (numeral_String_of_N n)).
  rewrite decimal_String_of_N. unfold for_chapters.
  cbn [nth_error number_string first_chapter iterations].
  replace (N.to_nat (n + 1 - n)) with 1%nat by lia.
  assert (Hjson : json <> JNull) by (intros E; rewrite E in books_items; discriminate).
  assert (Hfetch : fetchBookList w t (js p)
                   = (Ok items, set_bookListCache (Some items)
                        (logged_request "Fetching books" (bookList_url t) (js p)))).
  { rewrite (fetchBookList_fetch w t (js p) json cache_empty books_answer).
    cbv zeta. rewrite (prop_field _ _ Hjson), books_items. reflexivity. }
  unfold bindP at 1, liftM at 1. cbn [js downloads files].
  pose proof (mkdir_found w t b (arg_canonical a) items (js p) _ i item name
                Hfetch books_entries book_found book_name) as Hmkdir.
  cbv zeta in Hmkdir. rewrite (padStart_position i) in Hmkdir.
  fold (directory_name (arg_canonical a) i (replace_whitespace name)) in Hmkdir.
  fold d in Hmkdir. rewrite directory_created in Hmkdir. rewrite Hmkdir.
  unfold bindP at 1, liftM at 1, console_log at 1, modify at 1.
  cbn [js downloads files].
  cbn [chapter_loop]. unfold bindP at 1. unfold bindP at 1.
  unfold download_chapter. unfold bindP at 1, liftM at 1. cbn [js downloads files].
  assert (Hhuman : truthy (reference_human answer) = true).
  { rewrite metadata_chapter. cbn [truthy].
    now rewrite (string_eqb_empty _ chapter_not_empty). }
  match goal with
  | |- context [fetchMetadata w t b n ?st] =>
      rewrite (fetchMetadata_ok w t b n st answer entry url metadata_answer
                 metadata_entry metadata_url url_not_empty Hhuman)
  end.
  unfold bindP at 1, liftM at 1, lift at 1. cbn [js downloads files chapterName audioUrl].
  rewrite metadata_chapter. cbn [getOutputFilePath replace_whitespace_of].
  fold path.
  unfold bindP at 1, download at 1.
  unfold bindP at 1, liftM at 1, console_log at 1, modify at 1.
  cbn [js downloads files]. rewrite audio_served. cbn [N.eqb Pos.eqb].
  unfold bindP at 1, liftM at 1, console_log at 1, modify at 1.
  cbn [js downloads files retP].
  unfold bindP at 1, liftM at 1, console_log at 1, modify at 1.
  cbn [js downloads files].
  unfold fs_promises_writeFile. cbn [js downloads files].
  rewrite file_written. cbn [retP].
  unfold liftM, console_log, modify. cbn [js downloads files].
  f_equal. f_equal. unfold metadata_requested, logged_request.
  apply State_ext; autorewrite with state; cbn [bookListCache requests console dirs];
    rewrite <- ?app_assoc; reflexivity.
Qed.

End SingleChapter.

(** A run for one chapter, from the command line to the file.  With a
    book and one chapter number below 2^53 on the command line, a book
    list that holds the book, a metadata answer of the expected shape,
    the audio served with status 200 and the directory and the file
    writable, the run makes two requests (the book list, then the metadata of that
    chapter), creates the directory of the book, downloads the normalized
    address, writes one file, named after the chapter, into that
    directory, and ends with exit code 0. *)
Theorem main_single_chapter (h : Host) (w : World) (args : list string)
  (p : Process) (b : string) (n : N) (json : JSON) (items : list JSON)
  (i : nat) (item : JSON) (name : string) (answer entry : JSON)
  (url chapter statusMessage body : string) :
  let a := getArgs h args in
  let t := TranslationId_string (arg_translationId a) in
  let d := directory_name (arg_canonical a) i (replace_whitespace name) in
  let path := path_join h d (replace_whitespace chapter ++ ".mp3") in
  arg_help a = false ->
  arg_listTranslations a = false ->
  arg_listBooks a = false ->
  isNaN h (arg_translationId a) = false ->
  arg_bookId a = Some b ->
  b <> "" ->
  arg_chapters a = Some (String_of_N n) ->
  (n < 2 ^ 53)%N ->
  bookListCache (js p) = None ->
  net w (requests (js p)) (bookList_url t) = inl json ->
  field json "items" = Some (JArr items) ->
  no_null_entry items ->
  first_with_code b items i item ->
  field item "human" = Some (JStr name) ->
  fs_mkdir w d = None ->
  net w (requests (js p) ++ [bookList_url t])%list (metaUrl t b n) = inl answer ->
  first_audio_entry answer = Some entry ->
  entry_url entry = Some (JStr url) ->
  url <> "" ->
  reference_human answer = Some (JStr chapter) ->
  chapter <> "" ->
  https_get h (downloads p) (normalize_url url) = Response 200 statusMessage body ->
  fs_writeFile h path body = None ->
  fst (main h w args p) = 0%N /\
  requests (js (snd (main h w args p)))
  = (requests (js p) ++ [bookList_url t; metaUrl t b n])%list /\
  dirs (js (snd (main h w args p))) = (dirs (js p) ++ [d])%list /\
  downloads (snd (main h w args p)) = (downloads p ++ [normalize_url url])%list /\
  files (snd (main h w args p)) = (files p ++ [(path, body)])%list.
Proof.
  intros a t d path H1 H2 H3 H4 H5 H6 H7 _ H8 H9 H10 H11 H12 H13 H14 H15 H16 H17
    H18 H19 H20 H21 H22.
  rewrite (main_single_chapter_run h w args p b n json items i item name answer
             entry url chapter statusMessage body H1 H2 H3 H4 H5 H6 H7 H8 H9 H10
             H11 H12 H13 H14 H15 H16 H17 H18 H19 H20 H21 H22).
  repeat split.
Qed.

Lemma main_single_chapter_witness :
  (1 < 2 ^ 53)%N /\
  fst (main sample_host sample_world ["-c"; "gen"; "1"] start) = 0%N /\
  requests (js (snd (main sample_host sample_world ["-c"; "gen"; "1"] start)))
  = [bookList_url "100"; metaUrl "100" "GEN" 1] /\
  dirs (js (snd (main sample_host sample_world ["-c"; "gen"; "1"] start)))
  = ["01-Genesis"] /\
  downloads (snd (main sample_host sample_world ["-c"; "gen"; "1"] start))
  = ["https://host/path"] /\
  files (snd (main sample_host sample_world ["-c"; "gen"; "1"] start))
  = [("01-Genesis/Genesis_1.mp3", "audio of https://host/path")].
Proof.
  assert (Hb : "GEN" <> "") by discriminate.
  assert (Hu : "//host/path" <> "") by discriminate.
  assert (Hc : "Genesis 1" <> "") by discriminate.
  assert (Hfirst : first_with_code "GEN" sample_books 0 (book "GEN" "Genesis")).
  { split; [reflexivity|]. split; [reflexivity|]. intros j item' Hj. lia. }
  assert (Hn : (1 < 2 ^ 53)%N) by reflexivity.
  split; [exact Hn|].
  exact (main_single_chapter sample_host sample_world ["-c"; "gen"; "1"] start
           "GEN" 1 (with_items sample_books) sample_books 0
           (book "GEN" "Genesis") "Genesis" sample_metadata
           (audio_entry "//host/path") "//host/path" "Genesis 1" "OK"
           "audio of https://host/path"
           eq_refl eq_refl eq_refl eq_refl eq_refl Hb eq_refl Hn eq_refl eq_refl
           eq_refl sample_books_no_null Hfirst eq_refl eq_refl eq_refl eq_refl
           eq_refl Hu eq_refl Hc eq_refl eq_refl).
Defined.
